(** * Chat session controller of the research-assistant front end

    A shallow embedding of the React state logic found in
    - [frontend/pages/chat.tsx]            (module [Chat]),
    - [frontend/components/ChatWindow.tsx] (module [ChatWindow]),
    - [frontend/components/DocumentUploader.tsx] (module [DocumentUploader]).

    Every [useState] cell becomes a record field.  An [async] handler is
    split at its single [await fetch(...)]: the part that runs synchronously
    when the handler is called keeps the handler's name and returns the new
    state together with the network calls it issues; the part that runs when
    the promise settles is the handler's [_resume] function, which receives
    the values the closure captured and the outcome of the call.  A functional
    update [setMessages(prev => ...)] is applied to the state current at that
    moment.  A plain read such as [messages.length], [input] or [isTyping]
    reads the state of the render the handler was created in.  In the
    modules [Chat] and [ChatWindow] a handler is given one state: it is the
    handler of the render of that state, called while the state is still the
    same.  React may also deliver a second event to the handlers of one
    render; the modules [ChatLive] and [WindowLive] keep the rendered state
    apart from the current one and cover that case.  The values still needed
    after the [await] ([useResearch], [placeholderIndex]) are carried in
    [Captured].  Calls of [console.error] are left out. *)

From Stdlib Require Import NArith String Ascii.
From stdpp Require Import base list option.

Local Open Scope nat_scope.

(** ** JavaScript strings *)

(** A string is its sequence of UTF-16 code units. *)
Definition js_string := list N.

Definition lit (s : string) : js_string :=
  map N_of_ascii (list_ascii_of_string s).

(** [WhiteSpace] and [LineTerminator] code points of ECMAScript, the
    characters [String.prototype.trim] strips. *)
Definition is_white (c : N) : bool :=
  match c with
  | 9%N | 10%N | 11%N | 12%N | 13%N | 32%N | 160%N
  | 5760%N | 8232%N | 8233%N | 8239%N | 8287%N | 12288%N | 65279%N => true
  | _ => (8192 <=? c)%N && (c <=? 8202)%N
  end.

Fixpoint trimStart (s : js_string) : js_string :=
  match s with
  | c :: s' => if is_white c then trimStart s' else s
  | [] => []
  end.

Definition trimEnd (s : js_string) : js_string :=
  rev (trimStart (rev s)).

Definition trim (s : js_string) : js_string :=
  trimEnd (trimStart s).

(** Truthiness of a string value: only the empty string is falsy. *)
Definition truthy (s : js_string) : bool :=
  match s with [] => false | _ :: _ => true end.

(** [v || d] for an optional string field ([None] is [undefined]). *)
Definition or_else (v : option js_string) (d : js_string) : js_string :=
  match v with
  | Some s => if truthy s then s else d
  | None => d
  end.

(** Truthiness of a [string | null] value. *)
Definition truthy_opt (v : option js_string) : bool :=
  match v with Some s => truthy s | None => false end.

(** ** Messages and the transcript array *)

Inductive Sender := user | assistant.

Record Message := mkMessage {
  sender : Sender;
  content : js_string;
  isLoading : option bool   (* [isLoading?: boolean] *)
}.

Global Instance Sender_eq_dec : EqDecision Sender.
Proof. solve_decision. Defined.

Global Instance Message_eq_dec : EqDecision Message.
Proof. solve_decision. Defined.

(** A JavaScript array of messages.  A slot is [None] when it holds no
    message (a hole left by an assignment past the end). *)
Abbreviation Transcript := (list (option Message)).

(** [[...prev, m]] *)
Definition push (m : Message) (prev : Transcript) : Transcript :=
  prev ++ [Some m].

(** [newMsgs = [...prev]; newMsgs[i] = m; return newMsgs]: overwrite in
    range; past the end the array grows up to index [i]. *)
Definition assign (i : nat) (m : Message) (prev : Transcript) : Transcript :=
  if decide (i < length prev) then <[i := Some m]> prev
  else prev ++ replicate (i - length prev) None ++ [Some m].

Definition userMessage (q : js_string) : Message :=
  mkMessage user q None.

Definition assistantMessage (text : js_string) : Message :=
  mkMessage assistant text None.

Definition placeholder : Message :=
  mkMessage assistant (lit "Conducting deep research...") (Some true).

Definition noAnswer : js_string := lit "*(No answer)*".
Definition errMsg : js_string := lit "Error: Failed to get answer.".
Definition uploadErr : js_string := lit "Error: Failed to summarize document.".
Definition guidance : js_string := lit "Please upload a document first.".
Definition bingSearch : js_string := lit "Bing Search".
Definition invoking : js_string := lit "Invoking research tool...".

(** ** The two endpoints *)

(** A file chosen in the file input; only its identity matters. *)
Definition File := js_string.

(** Body sent to [/chat]. *)
Record ChatRequest := mkChatRequest {
  question : js_string;
  session_id : option js_string;
  req_personality : js_string;
  research : bool
}.

(** Body of a successful [/chat] response: [answer] and [tools_used] are
    both optional; when present they are a string and an array of strings. *)
Record ChatData := mkChatData {
  answer : option js_string;
  tools_used : option (list js_string)
}.

(** Body of a successful [/upload] response. *)
Record UploadResult := mkUploadResult {
  up_session_id : js_string;
  up_summary : option js_string;
  up_document : option js_string
}.

(** How an awaited [fetch] followed by the [ok] test and [json()] ends.
    Every constructor but [Ok] ends in the [catch] block. *)
Inductive Outcome (A : Type) :=
| NetworkError                                   (* [fetch] rejects *)
| HttpError (status : N) (errorText : js_string) (* [!response.ok] *)
| Malformed                                      (* [json()] rejects *)
| Ok (data : A).

Arguments NetworkError {A}.
Arguments HttpError {A} status errorText.
Arguments Malformed {A}.
Arguments Ok {A} data.

Definition failed {A} (o : Outcome A) : bool :=
  match o with Ok _ => false | _ => true end.

(** What the closure of [sendMessage] still holds after the [await]. *)
Record Captured := mkCaptured {
  useResearch : bool;
  placeholderIndex : option nat
}.

(** A network call in flight. *)
Inductive Call :=
| FetchUpload (f : File)
| FetchChat (body : ChatRequest) (k : Captured).

(** The branch shared by the [try] and [catch] blocks of [sendMessage]:
    [if (useResearch && placeholderIndex !== null) newMsgs[placeholderIndex] = ...
     else [...prev, ...]]. *)
Definition reconcile (k : Captured) (text : js_string) (prev : Transcript)
  : Transcript :=
  match useResearch k, placeholderIndex k with
  | true, Some i => assign i (assistantMessage text) prev
  | _, _ => push (assistantMessage text) prev
  end.

(** [data.tools_used && data.tools_used.includes("Bing Search")] *)
Definition usedBing (data : ChatData) : bool :=
  match tools_used data with
  | Some tools => bool_decide (bingSearch ∈ tools)
  | None => false
  end.

(** ** [frontend/pages/chat.tsx] *)

Module Chat.

Record State := mkState {
  personality : js_string;
  sessionId : option js_string;
  summary : js_string;
  messages : Transcript;
  input : js_string;
  isTyping : bool;
  uploading : bool;
  file : option File
}.

(** The [useState] initial values. *)
Definition initial : State :=
  mkState (lit "factual") None [] [] [] false false None.

Definition setPersonality v (s : State) : State :=
  mkState v (sessionId s) (summary s) (messages s) (input s)
          (isTyping s) (uploading s) (file s).
Definition setSessionId v (s : State) : State :=
  mkState (personality s) v (summary s) (messages s) (input s)
          (isTyping s) (uploading s) (file s).
Definition setSummary v (s : State) : State :=
  mkState (personality s) (sessionId s) v (messages s) (input s)
          (isTyping s) (uploading s) (file s).
(** [setMessages(prev => f prev)] *)
Definition setMessages (f : Transcript -> Transcript) (s : State) : State :=
  mkState (personality s) (sessionId s) (summary s) (f (messages s))
          (input s) (isTyping s) (uploading s) (file s).
Definition setInput v (s : State) : State :=
  mkState (personality s) (sessionId s) (summary s) (messages s) v
          (isTyping s) (uploading s) (file s).
Definition setIsTyping v (s : State) : State :=
  mkState (personality s) (sessionId s) (summary s) (messages s) (input s)
          v (uploading s) (file s).
Definition setUploading v (s : State) : State :=
  mkState (personality s) (sessionId s) (summary s) (messages s) (input s)
          (isTyping s) v (file s).
Definition setFile v (s : State) : State :=
  mkState (personality s) (sessionId s) (summary s) (messages s) (input s)
          (isTyping s) (uploading s) v.

Definition handlePersonalityChange (value : js_string) (s : State) : State :=
  setPersonality value s.

(** [e.target.files] is [null] or a list of files. *)
Definition handleFileChange (files : option (list File)) (s : State) : State :=
  match files with
  | Some (f :: _) => setFile (Some f) s
  | _ => s
  end.

(** [handleUpload] up to its [await fetch]. *)
Definition handleUpload (s : State) : State * list Call :=
  match file s with
  | None => (s, [])
  | Some f => (setUploading true s, [FetchUpload f])
  end.

(** [handleUpload] from the settled [fetch] to the end of [finally]. *)
Definition handleUpload_resume (o : Outcome UploadResult) (s : State)
  : State * list Call :=
  let s1 :=
    match o with
    | Ok data =>
        setSummary (or_else (up_summary data) [])
          (setSessionId (Some (up_session_id data)) s)
    | _ =>
        setMessages (push (assistantMessage uploadErr)) s
    end in
  (setUploading false s1, []).

(** [sendMessage] up to its [await fetch]. *)
Definition sendMessage (useResearch : bool) (s : State) : State * list Call :=
  if negb (truthy (trim (input s))) || isTyping s then (s, [])
  else if negb (truthy_opt (sessionId s)) then
    (setMessages (push (assistantMessage guidance)) s, [])
  else
    let userMsg := trim (input s) in
    let s1 := setInput [] s in
    let s2 := setMessages (push (userMessage userMsg)) s1 in
    let s3 := setIsTyping true s2 in
    let placeholderIndex :=
      if useResearch then Some (length (messages s) + 1) else None in
    let s4 := if useResearch then setMessages (push placeholder) s3 else s3 in
    (s4, [FetchChat
            (mkChatRequest userMsg (sessionId s) (personality s) useResearch)
            (mkCaptured useResearch placeholderIndex)]).

(** [sendMessage] from the settled [fetch] to the end of [finally]. *)
Definition sendMessage_resume (k : Captured) (o : Outcome ChatData) (s : State)
  : State * list Call :=
  let s1 :=
    match o with
    | Ok data =>
        let answer := or_else (answer data) noAnswer in
        setMessages (reconcile k answer) s
    | _ =>
        setMessages (reconcile k errMsg) s
    end in
  (setIsTyping false s1, []).

(** The [onKeyDown] handler of the message box. *)
Definition handleKeyPress (key : js_string) (shiftKey : bool) (s : State)
  : State * list Call :=
  if bool_decide (key = lit "Enter") && negb shiftKey then sendMessage false s
  else (s, []).

(** *** The page as a transition system *)

(** The component state together with the calls that have not settled. *)
Record System := mkSystem {
  ui : State;
  inflight : list Call
}.

Definition boot : System := mkSystem initial [].

Inductive Event :=
| PersonalityChange (value : js_string)
| FileChange (files : option (list File))
| InputChange (value : js_string)
| UploadClick
| Send (useResearch : bool)
| KeyDown (key : js_string) (shiftKey : bool)
| UploadSettles (n : nat) (o : Outcome UploadResult)
| ChatSettles (n : nat) (o : Outcome ChatData).

Definition issue (r : State * list Call) (pending : list Call) : System :=
  mkSystem (fst r) (pending ++ snd r).

(** One event, handled by the render of the current state: a render has
    taken place since the previous event ([ChatLive.step] is the step
    without that condition).  A settle event names the in-flight call it
    completes by its position; it changes nothing when there is no such
    call. *)
Definition step (e : Event) (sys : System) : System :=
  let s := ui sys in
  let calls := inflight sys in
  match e with
  | PersonalityChange v => mkSystem (handlePersonalityChange v s) calls
  | FileChange files => mkSystem (handleFileChange files s) calls
  | InputChange v => mkSystem (setInput v s) calls
  | UploadClick => issue (handleUpload s) calls
  | Send r => issue (sendMessage r s) calls
  | KeyDown key shift => issue (handleKeyPress key shift s) calls
  | UploadSettles n o =>
      match calls !! n with
      | Some (FetchUpload _) => issue (handleUpload_resume o s) (delete n calls)
      | _ => sys
      end
  | ChatSettles n o =>
      match calls !! n with
      | Some (FetchChat _ k) => issue (sendMessage_resume k o s) (delete n calls)
      | _ => sys
      end
  end.

Definition run (evs : list Event) (sys : System) : System :=
  foldl (fun acc e => step e acc) sys evs.

End Chat.

(** ** [frontend/components/ChatWindow.tsx] *)

Module ChatWindow.

(** [ChatWindowProps]: the session is handed in by the parent and is a
    plain string here. *)
Record Props := mkProps {
  sessionId : js_string;
  personality : js_string;
  summary : js_string
}.

Record State := mkState {
  messages : Transcript;
  input : js_string;
  isLoading : bool;
  toolUsed : option js_string
}.

Definition initial : State := mkState [] [] false None.

Definition setMessages (f : Transcript -> Transcript) (s : State) : State :=
  mkState (f (messages s)) (input s) (isLoading s) (toolUsed s).
Definition setInput v (s : State) : State :=
  mkState (messages s) v (isLoading s) (toolUsed s).
Definition setIsLoading v (s : State) : State :=
  mkState (messages s) (input s) v (toolUsed s).
Definition setToolUsed v (s : State) : State :=
  mkState (messages s) (input s) (isLoading s) v.

(** [sendMessage] up to its [await fetch]. *)
Definition sendMessage (p : Props) (useResearch : bool) (s : State)
  : State * list Call :=
  if negb (truthy (trim (input s))) || isLoading s then (s, [])
  else
    let question := trim (input s) in
    let s1 := setInput [] s in
    let s2 := setMessages (push (userMessage question)) s1 in
    let s3 := setIsLoading true s2 in
    let placeholderIndex :=
      if useResearch then Some (length (messages s) + 1) else None in
    let s4 := if useResearch then setMessages (push placeholder) s3 else s3 in
    (s4, [FetchChat
            (mkChatRequest question (Some (sessionId p)) (personality p)
                           useResearch)
            (mkCaptured useResearch placeholderIndex)]).

(** [sendMessage] from the settled [fetch] to the end of [finally]. *)
Definition sendMessage_resume (k : Captured) (o : Outcome ChatData) (s : State)
  : State * list Call :=
  let s1 :=
    match o with
    | Ok data =>
        let answer := or_else (answer data) noAnswer in
        let s' := setMessages (reconcile k answer) s in
        if usedBing data then setToolUsed (Some invoking) s' else s'
    | _ =>
        setMessages (reconcile k errMsg) s
    end in
  (setIsLoading false s1, []).

Definition handleKeyPress (p : Props) (key : js_string) (shiftKey : bool)
  (s : State) : State * list Call :=
  if bool_decide (key = lit "Enter") && negb shiftKey then sendMessage p false s
  else (s, []).

(** [{toolUsed && <div>...{toolUsed}...</div>}]: the banner text shown, if
    any. *)
Definition banner (s : State) : option js_string :=
  match toolUsed s with
  | Some t => if truthy t then Some t else None
  | None => None
  end.

(** *** The component as a transition system *)

Record System := mkSystem {
  ui : State;
  inflight : list Call
}.

Definition boot : System := mkSystem initial [].

Inductive Event :=
| InputChange (value : js_string)
| Send (useResearch : bool)
| KeyDown (key : js_string) (shiftKey : bool)
| ChatSettles (n : nat) (o : Outcome ChatData).

Definition issue (r : State * list Call) (pending : list Call) : System :=
  mkSystem (fst r) (pending ++ snd r).

(** One event, handled by the render of the current state
    ([WindowLive.step] is the step without that condition). *)
Definition step (p : Props) (e : Event) (sys : System) : System :=
  let s := ui sys in
  let calls := inflight sys in
  match e with
  | InputChange v => mkSystem (setInput v s) calls
  | Send r => issue (sendMessage p r s) calls
  | KeyDown key shift => issue (handleKeyPress p key shift s) calls
  | ChatSettles n o =>
      match calls !! n with
      | Some (FetchChat _ k) => issue (sendMessage_resume k o s) (delete n calls)
      | _ => sys
      end
  end.

Definition run (p : Props) (evs : list Event) (sys : System) : System :=
  foldl (fun acc e => step p e acc) sys evs.

End ChatWindow.

(** ** [frontend/components/DocumentUploader.tsx] *)

Module DocumentUploader.

Record State := mkState {
  file : option File;
  uploading : bool
}.

Definition initial : State := mkState None false.

Definition setFile v (s : State) : State := mkState v (uploading s).
Definition setUploading v (s : State) : State := mkState (file s) v.

(** [if (e.target.files) setFile(e.target.files[0])]; the first element of
    an empty list is [undefined], as falsy as [null]. *)
Definition handleFileChange (files : option (list File)) (s : State) : State :=
  match files with
  | Some fs => setFile (head fs) s
  | None => s
  end.

(** [handleUpload] up to its [await fetch]. *)
Definition handleUpload (s : State) : State * list Call :=
  match file s with
  | None => (s, [])
  | Some f => (setUploading true s, [FetchUpload f])
  end.

(** [handleUpload] from the settled [fetch] to the end of [finally].  The
    second component lists the arguments of the [onUpload(data)] calls made,
    the only way this component reports to its parent. *)
Definition handleUpload_resume (o : Outcome UploadResult) (s : State)
  : State * list UploadResult :=
  let called :=
    match o with
    | Ok data => [data]
    | _ => []
    end in
  (setUploading false s, called).

End DocumentUploader.

(** ** Properties of runs *)

(** The closures of the chat calls in flight. *)
Definition chatsOf (calls : list Call) : list Captured :=
  omap (fun c => match c with
                 | FetchChat _ k => Some k
                 | FetchUpload _ => None
                 end) calls.

(** A captured placeholder index still points at the placeholder. *)
Definition awaits (msgs : Transcript) (k : Captured) : Prop :=
  forall i, useResearch k = true -> placeholderIndex k = Some i ->
            msgs !! i = Some (Some placeholder).

(** What holds between a transcript, the busy flag ([isTyping] or
    [isLoading]) and the calls in flight, in every state a run reaches. *)
Record consistent (msgs : Transcript) (busy : bool) (calls : list Call)
  : Prop := mkConsistent {
  c_dense : Forall is_Some msgs;
  c_single : length (chatsOf calls) <= 1;
  c_busy : busy = false <-> chatsOf calls = [];
  c_awaits : Forall (awaits msgs) (chatsOf calls)
}.

Definition chat_wf (sys : Chat.System) : Prop :=
  consistent (Chat.messages (Chat.ui sys)) (Chat.isTyping (Chat.ui sys))
             (Chat.inflight sys).

Definition window_wf (sys : ChatWindow.System) : Prop :=
  consistent (ChatWindow.messages (ChatWindow.ui sys))
             (ChatWindow.isLoading (ChatWindow.ui sys))
             (ChatWindow.inflight sys).

(** [new] keeps every message of [old] at its index, except that a
    placeholder may have become a finished assistant message. *)
Definition stable (old new : Transcript) : Prop :=
  length old <= length new /\
  forall i m, old !! i = Some (Some m) ->
    new !! i = Some (Some m) \/
    (m = placeholder /\ exists text, new !! i = Some (Some (assistantMessage text))).

(** The change one handler makes to the transcript. *)
Inductive edit (old : Transcript) : Transcript -> Prop :=
| edit_none : edit old old
| edit_push m : edit old (old ++ [Some m])
| edit_push2 m1 m2 : edit old (old ++ [Some m1; Some m2])
| edit_overwrite i text :
    old !! i = Some (Some placeholder) ->
    edit old (<[i := Some (assistantMessage text)]> old).

(** Sample states used to exercise the statements below. *)
Definition cats : js_string := lit "  What color are cats? ".

Definition chat_ready : Chat.State :=
  Chat.mkState (lit "factual") (Some (lit "s1")) (lit "doc about cats")
               [] cats false false None.

Definition chat_nosession : Chat.State :=
  Chat.mkState (lit "factual") None [] [] cats false false
               (Some (lit "paper.pdf")).

Definition chat_blank : Chat.State :=
  Chat.mkState (lit "factual") (Some (lit "s1")) [] [] (lit "   ") false false
               None.


Definition window_props : ChatWindow.Props :=
  ChatWindow.mkProps (lit "s1") (lit "friendly") (lit "doc about cats").

Definition window_ready : ChatWindow.State :=
  ChatWindow.mkState [] cats false None.

Definition window_blank : ChatWindow.State :=
  ChatWindow.mkState [] (lit "   ") false None.

Definition studyX : ChatData :=
  mkChatData (Some (lit "Study X found...")) (Some [lit "Bing Search"]).

Definition wiki : ChatData :=
  mkChatData (Some (lit "Study X found...")) (Some [lit "Wikipedia"]).

Definition uploader_busy : DocumentUploader.State :=
  DocumentUploader.mkState (Some (lit "paper.pdf")) true.

(** The state and the call [sendMessage] leaves behind when it passes its
    guards. *)
Definition chat_sent (r : bool) (s : Chat.State) : Chat.State :=
  Chat.mkState (Chat.personality s) (Chat.sessionId s) (Chat.summary s)
    (Chat.messages s ++ Some (userMessage (trim (Chat.input s)))
                     :: (if r then [Some placeholder] else []))
    [] true (Chat.uploading s) (Chat.file s).

Definition captured (r : bool) (prev : Transcript) : Captured :=
  mkCaptured r (if r then Some (length prev + 1) else None).

Definition window_sent (r : bool) (w : ChatWindow.State) : ChatWindow.State :=
  ChatWindow.mkState
    (ChatWindow.messages w ++ Some (userMessage (trim (ChatWindow.input w)))
                            :: (if r then [Some placeholder] else []))
    [] true (ChatWindow.toolUsed w).

(** The text [sendMessage] writes into the transcript once its call has
    settled with outcome [o]. *)
Definition settled_text (o : Outcome ChatData) : js_string :=
  match o with
  | Ok data => or_else (answer data) noAnswer
  | _ => errMsg
  end.

(** ** What the rendered components let the user do *)

(** The render part of [frontend/pages/chat.tsx]: which screen is shown
    and which controls are disabled.  A control that is not rendered or is
    disabled delivers no event. *)
Module ChatView.

(** The [<option>] values of the personality selector. *)
Definition personalities : list js_string :=
  [lit "factual"; lit "friendly"; lit "humorous"].

(** [if (!sessionId) return <upload screen>] *)
Definition uploadScreen (s : Chat.State) : bool :=
  negb (truthy_opt (Chat.sessionId s)).

(** [disabled={uploading || !file}] *)
Definition uploadDisabled (s : Chat.State) : bool :=
  Chat.uploading s || match Chat.file s with Some _ => false | None => true end.

(** [disabled={isTyping || !input.trim()}] of both send buttons *)
Definition sendDisabled (s : Chat.State) : bool :=
  Chat.isTyping s || negb (truthy (trim (Chat.input s))).

(** [disabled={isTyping}] of the message box *)
Definition inputDisabled (s : Chat.State) : bool := Chat.isTyping s.

(** [{summary && <div>...</div>}] *)
Definition summaryShown (s : Chat.State) : bool :=
  negb (uploadScreen s) && truthy (Chat.summary s).

(** Whether the page as rendered in state [s] can deliver the event. *)
Definition enabled (e : Chat.Event) (s : Chat.State) : bool :=
  match e with
  | Chat.PersonalityChange v =>
      uploadScreen s && bool_decide (v ∈ personalities)
  | Chat.FileChange _ => uploadScreen s
  | Chat.UploadClick => uploadScreen s && negb (uploadDisabled s)
  | Chat.InputChange _ => negb (uploadScreen s) && negb (inputDisabled s)
  | Chat.KeyDown _ _ => negb (uploadScreen s) && negb (inputDisabled s)
  | Chat.Send _ => negb (uploadScreen s) && negb (sendDisabled s)
  | Chat.UploadSettles _ _ | Chat.ChatSettles _ _ => true
  end.

Definition deliver (e : Chat.Event) (sys : Chat.System) : Chat.System :=
  if enabled e (Chat.ui sys) then Chat.step e sys else sys.

Definition run (evs : list Chat.Event) (sys : Chat.System) : Chat.System :=
  foldl (fun acc e => deliver e acc) sys evs.

End ChatView.

(** The render part of [frontend/components/ChatWindow.tsx]. *)
Module WindowView.

(** [disabled={isLoading || !input.trim()}] of both send buttons *)
Definition sendDisabled (w : ChatWindow.State) : bool :=
  ChatWindow.isLoading w || negb (truthy (trim (ChatWindow.input w))).

(** [disabled={isLoading}] of the message box *)
Definition inputDisabled (w : ChatWindow.State) : bool := ChatWindow.isLoading w.

Definition enabled (e : ChatWindow.Event) (w : ChatWindow.State) : bool :=
  match e with
  | ChatWindow.InputChange _ => negb (inputDisabled w)
  | ChatWindow.KeyDown _ _ => negb (inputDisabled w)
  | ChatWindow.Send _ => negb (sendDisabled w)
  | ChatWindow.ChatSettles _ _ => true
  end.

End WindowView.

(** [frontend/components/DocumentUploader.tsx] as a transition system;
    [reported] collects the arguments of the [onUpload] calls made so far. *)
Module UploaderView.

Record System := mkSystem {
  ui : DocumentUploader.State;
  inflight : list Call;
  reported : list UploadResult
}.

Definition boot : System := mkSystem DocumentUploader.initial [] [].

Inductive Event :=
| FileChange (files : option (list File))
| UploadClick
| UploadSettles (n : nat) (o : Outcome UploadResult).

Definition step (e : Event) (sys : System) : System :=
  let s := ui sys in
  match e with
  | FileChange files =>
      mkSystem (DocumentUploader.handleFileChange files s) (inflight sys)
               (reported sys)
  | UploadClick =>
      let r := DocumentUploader.handleUpload s in
      mkSystem (fst r) (inflight sys ++ snd r) (reported sys)
  | UploadSettles n o =>
      match inflight sys !! n with
      | Some (FetchUpload _) =>
          let r := DocumentUploader.handleUpload_resume o s in
          mkSystem (fst r) (delete n (inflight sys)) (reported sys ++ snd r)
      | _ => sys
      end
  end.

(** [disabled={uploading || !file}] *)
Definition uploadDisabled (s : DocumentUploader.State) : bool :=
  DocumentUploader.uploading s
  || match DocumentUploader.file s with Some _ => false | None => true end.

Definition enabled (e : Event) (s : DocumentUploader.State) : bool :=
  match e with
  | UploadClick => negb (uploadDisabled s)
  | FileChange _ | UploadSettles _ _ => true
  end.

Definition deliver (e : Event) (sys : System) : System :=
  if enabled e (ui sys) then step e sys else sys.

Definition run (evs : list Event) (sys : System) : System :=
  foldl (fun acc e => deliver e acc) sys evs.

End UploaderView.

(** ** The exchange protocol both chat components follow *)

(** What the protocol is about: the transcript, the busy flag and the
    calls in flight. *)
Abbreviation Core := (list (option Message) * bool * list Call)%type.

Definition chat_core (sys : Chat.System) : Core :=
  (Chat.messages (Chat.ui sys), Chat.isTyping (Chat.ui sys), Chat.inflight sys).

Definition window_core (sys : ChatWindow.System) : Core :=
  (ChatWindow.messages (ChatWindow.ui sys),
   ChatWindow.isLoading (ChatWindow.ui sys), ChatWindow.inflight sys).

(** The moves an event can make on the core. *)
Inductive move : Core -> Core -> Prop :=
| move_stay c : move c c
| move_note msgs busy calls text :
    move (msgs, busy, calls) (push (assistantMessage text) msgs, busy, calls)
| move_upload msgs busy calls f :
    move (msgs, busy, calls) (msgs, busy, calls ++ [FetchUpload f])
| move_uploaded msgs busy calls n f (good : bool) :
    calls !! n = Some (FetchUpload f) ->
    move (msgs, busy, calls)
         (if good then msgs else push (assistantMessage uploadErr) msgs,
          busy, delete n calls)
| move_dispatch msgs calls r inp body :
    trim inp <> [] -> question body = trim inp -> research body = r ->
    move (msgs, false, calls)
         (msgs ++ Some (userMessage (trim inp))
               :: (if r then [Some placeholder] else []),
          true, calls ++ [FetchChat body (captured r msgs)])
| move_settled msgs busy calls n body k text :
    calls !! n = Some (FetchChat body k) ->
    move (msgs, busy, calls) (reconcile k text msgs, false, delete n calls).

(** Every message still marked as loading is the placeholder of a research
    call in flight. *)
Definition tracked (msgs : Transcript) (calls : list Call) : Prop :=
  forall i m, msgs !! i = Some (Some m) -> isLoading m = Some true ->
    exists k, k ∈ chatsOf calls /\ useResearch k = true /\
              placeholderIndex k = Some i.

(** A question as [sendMessage] sends it: not empty and free of leading
    and trailing white space. *)
Definition trimmed (q : js_string) : Prop := q <> [] /\ trim q = q.

Definition users_trimmed (msgs : Transcript) : Prop :=
  forall i m, msgs !! i = Some (Some m) -> sender m = user -> trimmed (content m).

(** A request in flight asks a trimmed question; a research request has
    captured the index after the user message that holds its question, any
    other request has captured none. *)
Definition asks (msgs : Transcript) (c : Call) : Prop :=
  match c with
  | FetchChat body k =>
      research body = useResearch k /\ trimmed (question body) /\
      if useResearch k
      then exists j, placeholderIndex k = Some (S j) /\
                     msgs !! j = Some (Some (userMessage (question body)))
      else placeholderIndex k = None
  | FetchUpload _ => True
  end.

Record sound (c : Core) : Prop := mkSound {
  s_consistent : consistent c.1.1 c.1.2 c.2;
  s_tracked : tracked c.1.1 c.2;
  s_users : users_trimmed c.1.1;
  s_asks : Forall (asks c.1.1) c.2
}.

(** ** The page under the events its screen can deliver *)

Definition uploadsOf (calls : list Call) : list File :=
  omap (fun c => match c with
                 | FetchUpload f => Some f
                 | FetchChat _ _ => None
                 end) calls.




(** ** Questions and answers in the chat window *)



(** ** Handlers and the render they were created in *)

(** [frontend/pages/chat.tsx] with the render made explicit.  [live] is the
    state React holds, [seen] the state of the last render: the constants
    [input], [isTyping], [sessionId], [personality], [messages] and [file]
    a handler reads are those of [seen], while its updates, plain or
    functional, apply to [live].  A render may take place between any two
    events, or not. *)
Module ChatLive.

Record System := mkSystem {
  live : Chat.State;
  seen : Chat.State;
  inflight : list Call
}.

Definition boot : System := mkSystem Chat.initial Chat.initial [].

(** [handleUpload] of the render of [seen], up to its [await fetch]. *)
Definition handleUpload (seen s : Chat.State) : Chat.State * list Call :=
  match Chat.file seen with
  | None => (s, [])
  | Some f => (Chat.setUploading true s, [FetchUpload f])
  end.

(** [sendMessage] of the render of [seen], up to its [await fetch]. *)
Definition sendMessage (seen : Chat.State) (useResearch : bool) (s : Chat.State)
  : Chat.State * list Call :=
  if negb (truthy (trim (Chat.input seen))) || Chat.isTyping seen then (s, [])
  else if negb (truthy_opt (Chat.sessionId seen)) then
    (Chat.setMessages (push (assistantMessage guidance)) s, [])
  else
    let userMsg := trim (Chat.input seen) in
    let s1 := Chat.setInput [] s in
    let s2 := Chat.setMessages (push (userMessage userMsg)) s1 in
    let s3 := Chat.setIsTyping true s2 in
    let placeholderIndex :=
      if useResearch then Some (length (Chat.messages seen) + 1) else None in
    let s4 :=
      if useResearch then Chat.setMessages (push placeholder) s3 else s3 in
    (s4, [FetchChat
            (mkChatRequest userMsg (Chat.sessionId seen) (Chat.personality seen)
                           useResearch)
            (mkCaptured useResearch placeholderIndex)]).

Definition handleKeyPress (seen : Chat.State) (key : js_string)
  (shiftKey : bool) (s : Chat.State) : Chat.State * list Call :=
  if bool_decide (key = lit "Enter") && negb shiftKey
  then sendMessage seen false s
  else (s, []).

Inductive Event :=
| Render
| Handle (e : Chat.Event).

Definition issue (r : Chat.State * list Call) (seen : Chat.State)
  (pending : list Call) : System :=
  mkSystem (fst r) seen (pending ++ snd r).

Definition step (ev : Event) (sys : System) : System :=
  let s := live sys in
  let calls := inflight sys in
  match ev with
  | Render => mkSystem s s calls
  | Handle e =>
      match e with
      | Chat.PersonalityChange v =>
          mkSystem (Chat.handlePersonalityChange v s) (seen sys) calls
      | Chat.FileChange files =>
          mkSystem (Chat.handleFileChange files s) (seen sys) calls
      | Chat.InputChange v => mkSystem (Chat.setInput v s) (seen sys) calls
      | Chat.UploadClick => issue (handleUpload (seen sys) s) (seen sys) calls
      | Chat.Send r => issue (sendMessage (seen sys) r s) (seen sys) calls
      | Chat.KeyDown key shift =>
          issue (handleKeyPress (seen sys) key shift s) (seen sys) calls
      | Chat.UploadSettles n o =>
          match calls !! n with
          | Some (FetchUpload _) =>
              issue (Chat.handleUpload_resume o s) (seen sys) (delete n calls)
          | _ => sys
          end
      | Chat.ChatSettles n o =>
          match calls !! n with
          | Some (FetchChat _ k) =>
              issue (Chat.sendMessage_resume k o s) (seen sys) (delete n calls)
          | _ => sys
          end
      end
  end.

Definition run (evs : list Event) (sys : System) : System :=
  foldl (fun acc ev => step ev acc) sys evs.

(** The events whose handler reads constants of its render. *)
Definition reads (e : Chat.Event) : bool :=
  match e with
  | Chat.UploadClick | Chat.Send _ | Chat.KeyDown _ _ => true
  | _ => false
  end.

(** Every such handler is called from a render that has seen the state as
    it is at the call. *)
Fixpoint timely (evs : list Event) (sys : System) : Prop :=
  match evs with
  | [] => True
  | ev :: rest =>
      match ev with
      | Handle e => reads e = true -> seen sys = live sys
      | Render => True
      end /\ timely rest (step ev sys)
  end.

Definition forget (sys : System) : Chat.System :=
  Chat.mkSystem (live sys) (inflight sys).

Definition handled (evs : list Event) : list Chat.Event :=
  omap (fun ev => match ev with Handle e => Some e | Render => None end) evs.

End ChatLive.

(** [frontend/components/ChatWindow.tsx] with the render made explicit. *)
Module WindowLive.

Record System := mkSystem {
  live : ChatWindow.State;
  seen : ChatWindow.State;
  inflight : list Call
}.

Definition boot : System :=
  mkSystem ChatWindow.initial ChatWindow.initial [].

(** [sendMessage] of the render of [seen], up to its [await fetch]. *)
Definition sendMessage (p : ChatWindow.Props) (seen : ChatWindow.State)
  (useResearch : bool) (s : ChatWindow.State) : ChatWindow.State * list Call :=
  if negb (truthy (trim (ChatWindow.input seen))) || ChatWindow.isLoading seen
  then (s, [])
  else
    let question := trim (ChatWindow.input seen) in
    let s1 := ChatWindow.setInput [] s in
    let s2 := ChatWindow.setMessages (push (userMessage question)) s1 in
    let s3 := ChatWindow.setIsLoading true s2 in
    let placeholderIndex :=
      if useResearch then Some (length (ChatWindow.messages seen) + 1)
      else None in
    let s4 :=
      if useResearch then ChatWindow.setMessages (push placeholder) s3 else s3 in
    (s4, [FetchChat
            (mkChatRequest question (Some (ChatWindow.sessionId p))
                           (ChatWindow.personality p) useResearch)
            (mkCaptured useResearch placeholderIndex)]).

Definition handleKeyPress (p : ChatWindow.Props) (seen : ChatWindow.State)
  (key : js_string) (shiftKey : bool) (s : ChatWindow.State)
  : ChatWindow.State * list Call :=
  if bool_decide (key = lit "Enter") && negb shiftKey
  then sendMessage p seen false s
  else (s, []).

Inductive Event :=
| Render
| Handle (e : ChatWindow.Event).

Definition issue (r : ChatWindow.State * list Call) (seen : ChatWindow.State)
  (pending : list Call) : System :=
  mkSystem (fst r) seen (pending ++ snd r).

Definition step (p : ChatWindow.Props) (ev : Event) (sys : System) : System :=
  let s := live sys in
  let calls := inflight sys in
  match ev with
  | Render => mkSystem s s calls
  | Handle e =>
      match e with
      | ChatWindow.InputChange v =>
          mkSystem (ChatWindow.setInput v s) (seen sys) calls
      | ChatWindow.Send r =>
          issue (sendMessage p (seen sys) r s) (seen sys) calls
      | ChatWindow.KeyDown key shift =>
          issue (handleKeyPress p (seen sys) key shift s) (seen sys) calls
      | ChatWindow.ChatSettles n o =>
          match calls !! n with
          | Some (FetchChat _ k) =>
              issue (ChatWindow.sendMessage_resume k o s) (seen sys)
                    (delete n calls)
          | _ => sys
          end
      end
  end.

Definition run (p : ChatWindow.Props) (evs : list Event) (sys : System)
  : System :=
  foldl (fun acc ev => step p ev acc) sys evs.

Definition reads (e : ChatWindow.Event) : bool :=
  match e with
  | ChatWindow.Send _ | ChatWindow.KeyDown _ _ => true
  | _ => false
  end.

Fixpoint timely (p : ChatWindow.Props) (evs : list Event) (sys : System)
  : Prop :=
  match evs with
  | [] => True
  | ev :: rest =>
      match ev with
      | Handle e => reads e = true -> seen sys = live sys
      | Render => True
      end /\ timely p rest (step p ev sys)
  end.

Definition forget (sys : System) : ChatWindow.System :=
  ChatWindow.mkSystem (live sys) (inflight sys).

Definition handled (evs : list Event) : list ChatWindow.Event :=
  omap (fun ev => match ev with Handle e => Some e | Render => None end) evs.

End WindowLive.

(** * Theorems *)

(** Unfold the [useState] setters of a component. *)
Ltac chat_simpl :=
  unfold Chat.setMessages, Chat.setIsTyping, Chat.setInput, Chat.setUploading,
    Chat.setSessionId, Chat.setSummary, Chat.setPersonality, Chat.setFile in *;
  simpl in *.

Ltac window_simpl :=
  unfold ChatWindow.setMessages, ChatWindow.setIsLoading, ChatWindow.setInput,
    ChatWindow.setToolUsed in *;
  simpl in *.

(** ** Strings *)

Lemma trimStart_nil (s : js_string) :
  trimStart s = [] <-> forallb is_white s = true.
Proof.
  induction s as [|c s IH]; simpl; [done|].
  destruct (is_white c); simpl; [exact IH | split; discriminate].
Qed.

Lemma trimStart_head (s t : js_string) (c : N) :
  trimStart s = c :: t -> is_white c = false.
Proof.
  induction s as [|d s IH]; simpl; [discriminate|].
  destruct (is_white d) eqn:Hd; [exact IH | congruence].
Qed.

Lemma forallb_rev (s : js_string) :
  forallb is_white (rev s) = forallb is_white s.
Proof.
  induction s as [|c s IH]; simpl; [done|].
  rewrite forallb_app, IH. simpl. rewrite andb_true_r. apply andb_comm.
Qed.

Lemma trimEnd_nil (s : js_string) :
  trimEnd s = [] <-> forallb is_white s = true.
Proof.
  unfold trimEnd. rewrite <- forallb_rev, <- trimStart_nil.
  split; [|by intros ->].
  intros H. apply (f_equal (@rev N)) in H. by rewrite rev_involutive in H.
Qed.

(** The input is empty once trimmed exactly when it holds nothing but
    white space. *)
Lemma trim_nil (s : js_string) : trim s = [] <-> forallb is_white s = true.
Proof.
  unfold trim. rewrite trimEnd_nil. split.
  - intros Hall. apply trimStart_nil.
    destruct (trimStart s) as [|c t] eqn:Hs; [done|].
    apply trimStart_head in Hs. simpl in Hall. by rewrite Hs in Hall.
  - intros Hall. apply trimStart_nil in Hall. by rewrite Hall.
Qed.

(** ** Arrays *)

Lemma assign_in_range i m prev :
  i < length prev -> assign i m prev = <[i := Some m]> prev.
Proof. intros Hi. unfold assign. case_decide; [done | lia]. Qed.

Lemma assign_second m prev x y :
  assign (length prev + 1) m (prev ++ [x; y]) = prev ++ [x; Some m].
Proof.
  rewrite assign_in_range by (rewrite length_app; simpl; lia).
  rewrite insert_app_r_alt by lia.
  by replace (length prev + 1 - length prev) with 1 by lia.
Qed.

Lemma truthy_nonempty s : truthy s = true <-> s <> [].
Proof. destruct s; simpl; split; congruence. Qed.


Lemma or_else_missing v d : v = None \/ v = Some [] -> or_else v d = d.
Proof. by intros [-> | ->]. Qed.

Lemma or_else_present a d : a <> [] -> or_else (Some a) d = a.
Proof. intros Ha. by destruct a. Qed.

(** ** Guards of [sendMessage] *)

Lemma chat_guard (r : bool) (s : Chat.State) :
  trim (Chat.input s) = [] \/ Chat.isTyping s = true ->
  Chat.sendMessage r s = (s, []).
Proof.
  intros [Hq | Hb]; unfold Chat.sendMessage.
  - by rewrite Hq.
  - rewrite Hb. by rewrite orb_true_r.
Qed.

Lemma window_guard (p : ChatWindow.Props) (r : bool) (w : ChatWindow.State) :
  trim (ChatWindow.input w) = [] \/ ChatWindow.isLoading w = true ->
  ChatWindow.sendMessage p r w = (w, []).
Proof.
  intros [Hq | Hb]; unfold ChatWindow.sendMessage.
  - by rewrite Hq.
  - rewrite Hb. by rewrite orb_true_r.
Qed.

Lemma chat_guidance (r : bool) (s : Chat.State) :
  trim (Chat.input s) <> [] -> Chat.isTyping s = false ->
  truthy_opt (Chat.sessionId s) = false ->
  Chat.sendMessage r s =
    (Chat.setMessages (push (assistantMessage guidance)) s, []).
Proof.
  intros Hq Hb Hs. unfold Chat.sendMessage.
  apply truthy_nonempty in Hq. by rewrite Hq, Hb, Hs.
Qed.

Lemma chat_dispatch (r : bool) (s : Chat.State) :
  trim (Chat.input s) <> [] -> Chat.isTyping s = false ->
  truthy_opt (Chat.sessionId s) = true ->
  Chat.sendMessage r s =
    (chat_sent r s,
     [FetchChat (mkChatRequest (trim (Chat.input s)) (Chat.sessionId s)
                               (Chat.personality s) r)
                (captured r (Chat.messages s))]).
Proof.
  intros Hq Hb Hs. unfold Chat.sendMessage.
  apply truthy_nonempty in Hq. rewrite Hq, Hb, Hs. simpl.
  unfold chat_sent, captured, push.
  destruct r; chat_simpl; [by rewrite <- (app_assoc _ [_] [_]) | done].
Qed.

Lemma window_dispatch (p : ChatWindow.Props) (r : bool) (w : ChatWindow.State) :
  trim (ChatWindow.input w) <> [] -> ChatWindow.isLoading w = false ->
  ChatWindow.sendMessage p r w =
    (window_sent r w,
     [FetchChat (mkChatRequest (trim (ChatWindow.input w))
                               (Some (ChatWindow.sessionId p))
                               (ChatWindow.personality p) r)
                (captured r (ChatWindow.messages w))]).
Proof.
  intros Hq Hb. unfold ChatWindow.sendMessage.
  apply truthy_nonempty in Hq. rewrite Hq, Hb. simpl.
  unfold window_sent, captured, push.
  destruct r; window_simpl; [by rewrite <- (app_assoc _ [_] [_]) | done].
Qed.

(** Reconciling the answer of an exchange nothing else has interleaved
    with: both modes end with the user message followed by the text. *)
Lemma reconcile_exchange (r : bool) (prev : Transcript) (q text : js_string) :
  reconcile (captured r prev) text
    (prev ++ Some (userMessage q) :: (if r then [Some placeholder] else []))
  = prev ++ [Some (userMessage q); Some (assistantMessage text)].
Proof.
  unfold reconcile, captured. destruct r; simpl.
  - apply assign_second.
  - unfold push. by rewrite <- app_assoc.
Qed.

(** ** What [sendMessage] does once its call has settled *)

Lemma chat_resume_messages k o s :
  Chat.messages (fst (Chat.sendMessage_resume k o s))
  = reconcile k (settled_text o) (Chat.messages s).
Proof. by destruct o. Qed.

Lemma chat_resume_idle k o s :
  Chat.isTyping (fst (Chat.sendMessage_resume k o s)) = false.
Proof. done. Qed.

Lemma chat_resume_calls k o s : snd (Chat.sendMessage_resume k o s) = [].
Proof. done. Qed.

Lemma window_resume_calls k o w : snd (ChatWindow.sendMessage_resume k o w) = [].
Proof. done. Qed.

Lemma window_resume_messages k o w :
  ChatWindow.messages (fst (ChatWindow.sendMessage_resume k o w))
  = reconcile k (settled_text o) (ChatWindow.messages w).
Proof. destruct o; try done. simpl. by destruct (usedBing data). Qed.

Lemma window_resume_idle k o w :
  ChatWindow.isLoading (fst (ChatWindow.sendMessage_resume k o w)) = false.
Proof. done. Qed.

Lemma window_resume_flag k o w :
  ChatWindow.toolUsed (fst (ChatWindow.sendMessage_resume k o w))
  = match o with
    | Ok data => if usedBing data then Some invoking else ChatWindow.toolUsed w
    | _ => ChatWindow.toolUsed w
    end.
Proof. destruct o; try done. simpl. by destruct (usedBing data). Qed.

(** ** The guards *)

(** C9: a call of [sendMessage] whose input is empty once trimmed, or that
    is made while a request is in flight ([isTyping] in the page,
    [isLoading] in the chat window), returns at once: the whole component
    state (transcript, lifecycle flag, session) is unchanged and no network
    call is issued. *)
Theorem ask_ignored (r : bool) (s : Chat.State)
    (p : ChatWindow.Props) (w : ChatWindow.State) :
  (trim (Chat.input s) = [] \/ Chat.isTyping s = true ->
   Chat.sendMessage r s = (s, [])) /\
  (trim (ChatWindow.input w) = [] \/ ChatWindow.isLoading w = true ->
   ChatWindow.sendMessage p r w = (w, [])).
Proof. split; [apply chat_guard | apply window_guard]. Qed.

Lemma ask_ignored_witness :
  trim (Chat.input chat_blank) = [] /\
  trim (ChatWindow.input window_blank) = [] /\
  Chat.sendMessage true chat_blank = (chat_blank, []) /\
  ChatWindow.sendMessage window_props true window_blank = (window_blank, []).
Proof.
  destruct (ask_ignored true chat_blank window_props window_blank) as [H1 H2].
  split; [reflexivity|]. split; [reflexivity|].
  split; [apply H1 | apply H2]; left; reflexivity.
Defined.

(** C6: when [sessionId] is null, a call of [sendMessage] with a non-blank
    input made while idle appends exactly one assistant message, the
    guidance "Please upload a document first.", issues no network call and
    leaves [isTyping] false. *)
Theorem ask_without_session (r : bool) (s : Chat.State) :
  Chat.sessionId s = None ->
  trim (Chat.input s) <> [] ->
  Chat.isTyping s = false ->
  let after := Chat.sendMessage r s in
  Chat.messages (fst after)
    = Chat.messages s
        ++ [Some (mkMessage assistant (lit "Please upload a document first.")
                            None)] /\
  snd after = [] /\
  Chat.isTyping (fst after) = false /\
  Chat.sessionId (fst after) = None.
Proof.
  intros Hs Hq Hb after. subst after.
  rewrite chat_guidance by (try done; by rewrite Hs).
  by chat_simpl.
Qed.

Lemma ask_without_session_witness :
  Chat.sessionId chat_nosession = None /\
  Chat.messages (fst (Chat.sendMessage false chat_nosession))
    = [Some (mkMessage assistant (lit "Please upload a document first.") None)] /\
  snd (Chat.sendMessage false chat_nosession) = [].
Proof.
  split; [reflexivity|].
  destruct (ask_without_session false chat_nosession) as (H1 & H2 & _);
    [reflexivity | vm_compute; discriminate | reflexivity |].
  split; [exact H1 | exact H2].
Defined.

(** ** One exchange *)

(** The placeholder is found again at its index whatever was appended to
    the transcript while the call was in flight. *)
Lemma reconcile_after_appends (prev extra : Transcript) (q text : js_string) :
  reconcile (captured true prev) text
    ((prev ++ [Some (userMessage q); Some placeholder]) ++ extra)
  = (prev ++ [Some (userMessage q); Some (assistantMessage text)]) ++ extra.
Proof.
  unfold reconcile, captured. simpl.
  rewrite assign_in_range by (rewrite !length_app; simpl; lia).
  rewrite insert_app_l by (rewrite length_app; simpl; lia).
  rewrite insert_app_r_alt by lia.
  by replace (length prev + 1 - length prev) with 1 by lia.
Qed.







(** ** Transcript edits keep positions *)

Lemma stable_refl (l : Transcript) : stable l l.
Proof. split; [done | auto]. Qed.

Lemma stable_trans (l1 l2 l3 : Transcript) :
  stable l1 l2 -> stable l2 l3 -> stable l1 l3.
Proof.
  intros [Hlen12 H12] [Hlen23 H23]. split; [lia|].
  intros i m Hi. destruct (H12 i m Hi) as [Hsame | (-> & text & Hdone)].
  - apply H23, Hsame.
  - right. split; [done|].
    destruct (H23 i _ Hdone) as [Hkept | (Habs & _)]; [eauto | discriminate].
Qed.

Lemma stable_app (l extra : Transcript) : stable l (l ++ extra).
Proof.
  split; [rewrite length_app; lia|].
  intros i m Hi. left. by apply lookup_app_l_Some.
Qed.

Lemma edit_stable (old new : Transcript) : edit old new -> stable old new.
Proof.
  destruct 1 as [ | m | m1 m2 | i text Hi].
  - apply stable_refl.
  - apply stable_app.
  - apply stable_app.
  - split; [by rewrite length_insert|].
    intros j m Hj. destruct (decide (i = j)) as [<- | Hne].
    + right. assert (m = placeholder) as -> by congruence.
      split; [done|]. exists text.
      apply list_lookup_insert_eq. by eapply lookup_lt_Some.
    + left. by rewrite list_lookup_insert_ne.
Qed.

(** ** Calls in flight *)

Lemma chatsOf_app (a b : list Call) : chatsOf (a ++ b) = chatsOf a ++ chatsOf b.
Proof. apply omap_app. Qed.

Lemma chatsOf_split (calls : list Call) (n : nat) (c : Call) :
  calls !! n = Some c ->
  chatsOf calls
    = chatsOf (take n calls) ++ chatsOf [c] ++ chatsOf (drop (S n) calls) /\
  chatsOf (delete n calls)
    = chatsOf (take n calls) ++ chatsOf (drop (S n) calls).
Proof.
  intros Hn. split.
  - rewrite <- (take_drop_middle calls n c Hn) at 1.
    rewrite chatsOf_app. f_equal. apply (chatsOf_app [c]).
  - by rewrite delete_take_drop, chatsOf_app.
Qed.

Lemma chatsOf_delete_upload (calls : list Call) (n : nat) (f : File) :
  calls !! n = Some (FetchUpload f) -> chatsOf (delete n calls) = chatsOf calls.
Proof. intros Hn. destruct (chatsOf_split _ _ _ Hn) as [-> ->]. done. Qed.

Lemma chatsOf_delete_chat (calls : list Call) (n : nat) body k :
  calls !! n = Some (FetchChat body k) ->
  length (chatsOf calls) <= 1 ->
  chatsOf calls = [k] /\ chatsOf (delete n calls) = [].
Proof.
  intros Hn. destruct (chatsOf_split _ _ _ Hn) as [-> ->]. simpl.
  rewrite length_app. simpl. intros Hlen.
  destruct (chatsOf (take n calls)); simpl in *; [|lia].
  destruct (chatsOf (drop (S n) calls)); simpl in *; [done | lia].
Qed.

(** ** The invariant of runs *)

Lemma consistent_boot : consistent [] false [].
Proof. split; simpl; try done. lia. Qed.

Lemma awaits_app (msgs extra : Transcript) (k : Captured) :
  awaits msgs k -> awaits (msgs ++ extra) k.
Proof. intros Hk i Hr Hi. apply lookup_app_l_Some. by apply Hk. Qed.

Lemma consistent_push m msgs busy calls :
  consistent msgs busy calls -> consistent (push m msgs) busy calls.
Proof.
  intros [Hd Hs Hb Ha]. split; try done.
  - apply Forall_app. split; [done|]. repeat constructor. by eexists.
  - revert Ha. apply List.Forall_impl. intros k. apply awaits_app.
Qed.

Lemma consistent_no_call msgs busy calls :
  consistent msgs busy calls -> consistent msgs busy (calls ++ []).
Proof. by rewrite app_nil_r. Qed.

Lemma consistent_issue_upload f msgs busy calls :
  consistent msgs busy calls -> consistent msgs busy (calls ++ [FetchUpload f]).
Proof.
  intros [Hd Hs Hb Ha].
  split; try done; rewrite chatsOf_app; simpl; by rewrite app_nil_r.
Qed.

Lemma consistent_dispatch (r : bool) (q : js_string) (body : ChatRequest)
    (msgs : Transcript) (calls : list Call) :
  consistent msgs false calls ->
  consistent
    (msgs ++ Some (userMessage q) :: (if r then [Some placeholder] else []))
    true (calls ++ [FetchChat body (captured r msgs)]).
Proof.
  intros [Hd Hs Hb Ha].
  assert (chatsOf calls = []) as Hnone by by apply Hb.
  split; rewrite ?chatsOf_app, ?Hnone; simpl.
  - apply Forall_app. split; [done|].
    destruct r; repeat constructor; by eexists.
  - lia.
  - split; discriminate.
  - repeat constructor. intros i Hr Hi. simpl in *. subst r.
    injection Hi as <-.
    rewrite lookup_app_r by lia.
    by replace (length msgs + 1 - length msgs) with 1 by lia.
Qed.

Lemma consistent_settle_upload n f msgs busy calls :
  calls !! n = Some (FetchUpload f) ->
  consistent msgs busy calls -> consistent msgs busy (delete n calls).
Proof.
  intros Hn [Hd Hs Hb Ha].
  split; rewrite ?(chatsOf_delete_upload _ _ _ Hn); done.
Qed.

Lemma consistent_settle_chat n body k text msgs busy calls :
  calls !! n = Some (FetchChat body k) ->
  consistent msgs busy calls ->
  consistent (reconcile k text msgs) false (delete n calls) /\
  edit msgs (reconcile k text msgs).
Proof.
  intros Hn [Hd Hs Hb Ha].
  destruct (chatsOf_delete_chat _ _ _ _ Hn Hs) as [Hk Hnone].
  rewrite Hk, Forall_singleton in Ha.
  assert (Forall is_Some (reconcile k text msgs) /\
          edit msgs (reconcile k text msgs)) as [Hd' He].
  { unfold reconcile.
    destruct (useResearch k) eqn:Hr, (placeholderIndex k) as [i|] eqn:Hi.
    - pose proof (Ha i Hr Hi) as Hph.
      rewrite assign_in_range by by eapply lookup_lt_Some.
      split; [|by constructor].
      apply Forall_insert; [done | by eexists].
    - split; [|constructor].
      apply Forall_app. split; [done|]. repeat constructor. by eexists.
    - split; [|constructor].
      apply Forall_app. split; [done|]. repeat constructor. by eexists.
    - split; [|constructor].
      apply Forall_app. split; [done|]. repeat constructor. by eexists. }
  split; [|done].
  split; rewrite ?Hnone; simpl; try done. lia.
Qed.

(** ** Steps of the page *)

Lemma chat_send_cases (r : bool) (s : Chat.State) :
  Chat.sendMessage r s = (s, []) \/
  Chat.sendMessage r s
    = (Chat.setMessages (push (assistantMessage guidance)) s, []) \/
  (Chat.isTyping s = false /\
   Chat.sendMessage r s
     = (chat_sent r s,
        [FetchChat (mkChatRequest (trim (Chat.input s)) (Chat.sessionId s)
                                  (Chat.personality s) r)
                   (captured r (Chat.messages s))])).
Proof.
  destruct (decide (trim (Chat.input s) = [])) as [Hq | Hq].
  { left. apply chat_guard. by left. }
  destruct (Chat.isTyping s) eqn:Hb.
  { left. apply chat_guard. by right. }
  destruct (truthy_opt (Chat.sessionId s)) eqn:Hs.
  - right. right. split; [done|]. by apply chat_dispatch.
  - right. left. by apply chat_guidance.
Qed.

Lemma chat_send_wf (r : bool) (sys : Chat.System) :
  chat_wf sys ->
  let sys' := Chat.issue (Chat.sendMessage r (Chat.ui sys)) (Chat.inflight sys) in
  chat_wf sys' /\
  edit (Chat.messages (Chat.ui sys)) (Chat.messages (Chat.ui sys')).
Proof.
  intros Hwf sys'. subst sys'. unfold chat_wf in *.
  destruct (chat_send_cases r (Chat.ui sys)) as [-> | [-> | [Hb ->]]];
    unfold Chat.issue; simpl.
  - split; [by apply consistent_no_call | constructor].
  - split; [|constructor].
    by apply consistent_no_call, consistent_push.
  - split; [|destruct r; constructor].
    apply consistent_dispatch. by rewrite <- Hb.
Qed.

Lemma chat_step_wf (e : Chat.Event) (sys : Chat.System) :
  chat_wf sys ->
  chat_wf (Chat.step e sys) /\
  edit (Chat.messages (Chat.ui sys)) (Chat.messages (Chat.ui (Chat.step e sys))).
Proof.
  intros Hwf.
  destruct e as [v | files | v | | r | key shift | n o | n o];
    cbn [Chat.step].
  - split; [exact Hwf | constructor].
  - split; [|destruct files as [[|f fs]|]; constructor].
    unfold chat_wf. by destruct files as [[|f fs]|].
  - split; [exact Hwf | constructor].
  - unfold Chat.handleUpload, chat_wf in *.
    destruct (Chat.file (Chat.ui sys)) as [f|]; unfold Chat.issue; simpl.
    + split; [by apply consistent_issue_upload | constructor].
    + split; [by apply consistent_no_call | constructor].
  - by apply chat_send_wf.
  - unfold Chat.handleKeyPress.
    destruct (bool_decide (key = lit "Enter") && negb shift).
    + by apply chat_send_wf.
    + unfold Chat.issue, chat_wf in *. simpl.
      split; [by apply consistent_no_call | constructor].
  - destruct (Chat.inflight sys !! n) as [[f | body k]|] eqn:Hn;
      try (split; [exact Hwf | constructor]).
    unfold Chat.issue, chat_wf in *. simpl.
    apply (consistent_settle_upload _ _ _ _ _ Hn) in Hwf.
    destruct o; chat_simpl;
      (split; [apply consistent_no_call | constructor]);
      try done; by apply consistent_push.
  - destruct (Chat.inflight sys !! n) as [[f | body k]|] eqn:Hn;
      try (split; [exact Hwf | constructor]).
    unfold Chat.issue, chat_wf in *. cbn [Chat.ui Chat.inflight].
    rewrite chat_resume_messages, chat_resume_idle, chat_resume_calls.
    destruct (consistent_settle_chat _ _ _ (settled_text o) _ _ _ Hn Hwf)
      as [Hc He].
    split; [by apply consistent_no_call | done].
Qed.

Lemma chat_run_cons e evs sys :
  Chat.run (e :: evs) sys = Chat.run evs (Chat.step e sys).
Proof. done. Qed.


Lemma chat_run_wf (evs : list Chat.Event) (sys : Chat.System) :
  chat_wf sys ->
  chat_wf (Chat.run evs sys) /\
  stable (Chat.messages (Chat.ui sys)) (Chat.messages (Chat.ui (Chat.run evs sys))).
Proof.
  revert sys. induction evs as [|e evs IH]; intros sys Hwf.
  - split; [done | apply stable_refl].
  - rewrite chat_run_cons.
    destruct (chat_step_wf e sys Hwf) as [Hwf' He].
    destruct (IH _ Hwf') as [Hwf'' Hst].
    split; [done|]. eapply stable_trans; [by apply edit_stable | done].
Qed.

Lemma chat_boot_wf : chat_wf Chat.boot.
Proof. apply consistent_boot. Qed.

(** ** Steps of the chat window *)

Lemma window_send_cases (p : ChatWindow.Props) (r : bool) (w : ChatWindow.State) :
  ChatWindow.sendMessage p r w = (w, []) \/
  (ChatWindow.isLoading w = false /\
   ChatWindow.sendMessage p r w
     = (window_sent r w,
        [FetchChat (mkChatRequest (trim (ChatWindow.input w))
                                  (Some (ChatWindow.sessionId p))
                                  (ChatWindow.personality p) r)
                   (captured r (ChatWindow.messages w))])).
Proof.
  destruct (decide (trim (ChatWindow.input w) = [])) as [Hq | Hq].
  { left. apply window_guard. by left. }
  destruct (ChatWindow.isLoading w) eqn:Hb.
  { left. apply window_guard. by right. }
  right. split; [done|]. by apply window_dispatch.
Qed.

Lemma window_send_wf p (r : bool) (sys : ChatWindow.System) :
  window_wf sys ->
  let sys' := ChatWindow.issue (ChatWindow.sendMessage p r (ChatWindow.ui sys))
                               (ChatWindow.inflight sys) in
  window_wf sys' /\
  edit (ChatWindow.messages (ChatWindow.ui sys))
       (ChatWindow.messages (ChatWindow.ui sys')).
Proof.
  intros Hwf sys'. subst sys'. unfold window_wf in *.
  destruct (window_send_cases p r (ChatWindow.ui sys)) as [-> | [Hb ->]];
    unfold ChatWindow.issue; simpl.
  - split; [by apply consistent_no_call | constructor].
  - split; [|destruct r; constructor].
    apply consistent_dispatch. by rewrite <- Hb.
Qed.

Lemma window_step_wf p (e : ChatWindow.Event) (sys : ChatWindow.System) :
  window_wf sys ->
  window_wf (ChatWindow.step p e sys) /\
  edit (ChatWindow.messages (ChatWindow.ui sys))
       (ChatWindow.messages (ChatWindow.ui (ChatWindow.step p e sys))).
Proof.
  intros Hwf. destruct e as [v | r | key shift | n o]; cbn [ChatWindow.step].
  - split; [exact Hwf | constructor].
  - by apply window_send_wf.
  - unfold ChatWindow.handleKeyPress.
    destruct (bool_decide (key = lit "Enter") && negb shift).
    + by apply window_send_wf.
    + unfold ChatWindow.issue, window_wf in *. simpl.
      split; [by apply consistent_no_call | constructor].
  - destruct (ChatWindow.inflight sys !! n) as [[f | body k]|] eqn:Hn;
      try (split; [exact Hwf | constructor]).
    unfold ChatWindow.issue, window_wf in *.
    cbn [ChatWindow.ui ChatWindow.inflight].
    rewrite window_resume_messages, window_resume_idle, window_resume_calls.
    destruct (consistent_settle_chat _ _ _ (settled_text o) _ _ _ Hn Hwf)
      as [Hc He].
    split; [by apply consistent_no_call | done].
Qed.

Lemma window_run_cons p e evs sys :
  ChatWindow.run p (e :: evs) sys = ChatWindow.run p evs (ChatWindow.step p e sys).
Proof. done. Qed.


Lemma window_run_wf p (evs : list ChatWindow.Event) (sys : ChatWindow.System) :
  window_wf sys ->
  window_wf (ChatWindow.run p evs sys) /\
  stable (ChatWindow.messages (ChatWindow.ui sys))
         (ChatWindow.messages (ChatWindow.ui (ChatWindow.run p evs sys))).
Proof.
  revert sys. induction evs as [|e evs IH]; intros sys Hwf.
  - split; [done | apply stable_refl].
  - rewrite window_run_cons.
    destruct (window_step_wf p e sys Hwf) as [Hwf' He].
    destruct (IH _ Hwf') as [Hwf'' Hst].
    split; [done|]. eapply stable_trans; [by apply edit_stable | done].
Qed.

Lemma window_boot_wf : window_wf ChatWindow.boot.
Proof. apply consistent_boot. Qed.

(** ** Lifecycle *)

Lemma chat_sending (r : bool) (s s1 : Chat.State) (c : Call) :
  Chat.sendMessage r s = (s1, [c]) ->
  Chat.isTyping s = false /\ Chat.isTyping s1 = true /\
  c = FetchChat (mkChatRequest (trim (Chat.input s)) (Chat.sessionId s)
                               (Chat.personality s) r)
                (captured r (Chat.messages s)).
Proof.
  destruct (chat_send_cases r s) as [-> | [-> | [Hb ->]]]; try discriminate.
  by intros [= <- <-].
Qed.

Lemma window_sending p (r : bool) (w w1 : ChatWindow.State) (c : Call) :
  ChatWindow.sendMessage p r w = (w1, [c]) ->
  ChatWindow.isLoading w = false /\ ChatWindow.isLoading w1 = true /\
  c = FetchChat (mkChatRequest (trim (ChatWindow.input w))
                               (Some (ChatWindow.sessionId p))
                               (ChatWindow.personality p) r)
                (captured r (ChatWindow.messages w)).
Proof.
  destruct (window_send_cases p r w) as [-> | [Hb ->]]; try discriminate.
  by intros [= <- <-].
Qed.

(** C2: a call of [sendMessage] that issues its request has set the busy
    flag ([isTyping] in the page, [isLoading] in the chat window); when the
    request settles, however it settles (network error, non-success status,
    unreadable body or success) and whatever state the component is in by
    then, the flag is false again.  Along every run from the initial state
    the flag is false exactly when no chat request is in flight, so a
    finished exchange never leaves the controller in the sending state. *)
Theorem lifecycle_restored (r : bool) :
  (forall s s1 body k,
     Chat.sendMessage r s = (s1, [FetchChat body k]) ->
     Chat.isTyping s1 = true /\
     forall o s', Chat.isTyping (fst (Chat.sendMessage_resume k o s')) = false) /\
  (forall p w w1 body k,
     ChatWindow.sendMessage p r w = (w1, [FetchChat body k]) ->
     ChatWindow.isLoading w1 = true /\
     forall o w',
       ChatWindow.isLoading (fst (ChatWindow.sendMessage_resume k o w')) = false) /\
  (forall evs,
     let sys := Chat.run evs Chat.boot in
     Chat.isTyping (Chat.ui sys) = false <-> chatsOf (Chat.inflight sys) = []) /\
  (forall p evs,
     let sys := ChatWindow.run p evs ChatWindow.boot in
     ChatWindow.isLoading (ChatWindow.ui sys) = false
     <-> chatsOf (ChatWindow.inflight sys) = []).
Proof.
  split; [|split; [|split]].
  - intros s s1 body k Hsend.
    apply chat_sending in Hsend as (_ & Hbusy & _). split; [exact Hbusy|].
    intros o s'. apply chat_resume_idle.
  - intros p w w1 body k Hsend.
    apply window_sending in Hsend as (_ & Hbusy & _). split; [exact Hbusy|].
    intros o w'. apply window_resume_idle.
  - intros evs sys.
    apply (c_busy _ _ _ (proj1 (chat_run_wf evs Chat.boot chat_boot_wf))).
  - intros p evs sys.
    apply (c_busy _ _ _
             (proj1 (window_run_wf p evs ChatWindow.boot window_boot_wf))).
Qed.

Lemma lifecycle_restored_witness :
  Chat.isTyping (chat_sent true chat_ready) = true /\
  Chat.isTyping
    (fst (Chat.sendMessage_resume (captured true []) (HttpError 500 [])
            (chat_sent true chat_ready))) = false /\
  ChatWindow.isLoading
    (fst (ChatWindow.sendMessage_resume (captured false []) Malformed
            (window_sent false window_ready))) = false.
Proof.
  destruct (lifecycle_restored true) as (Hc & _).
  destruct (lifecycle_restored false) as (_ & Hw & _).
  destruct (Hc chat_ready (chat_sent true chat_ready)
               (mkChatRequest (lit "What color are cats?") (Some (lit "s1"))
                              (lit "factual") true)
               (captured true [])) as [H1 H2]; [reflexivity|].
  destruct (Hw window_props window_ready (window_sent false window_ready)
               (mkChatRequest (lit "What color are cats?") (Some (lit "s1"))
                              (lit "friendly") false)
               (captured false [])) as [_ H3]; [reflexivity|].
  split; [exact H1|]. split; [apply H2 | apply H3].
Defined.

(** ** Failed requests *)

(** C3: when the chat request fails (network error, non-success status or
    unreadable body) the fixed text "Error: Failed to get answer." lands
    where the answer would have: in research mode it overwrites the
    placeholder at its index, otherwise it is appended as a new assistant
    message, so that either way the transcript is the old one followed by
    the user message and the error message.  The busy flag is false again,
    [toolUsed] keeps its value, and the handler issues no further call. *)
Theorem failure_reconciled (r : bool) (o : Outcome ChatData) :
  failed o = true ->
  (forall s,
     trim (Chat.input s) <> [] -> Chat.isTyping s = false ->
     truthy_opt (Chat.sessionId s) = true ->
     exists s1 body k,
       Chat.sendMessage r s = (s1, [FetchChat body k]) /\
       Chat.messages s1
         = Chat.messages s ++ Some (userMessage (trim (Chat.input s)))
                           :: (if r then [Some placeholder] else []) /\
       let after := Chat.sendMessage_resume k o s1 in
       Chat.messages (fst after)
         = Chat.messages s
             ++ [Some (userMessage (trim (Chat.input s)));
                 Some (mkMessage assistant
                                 (lit "Error: Failed to get answer.") None)] /\
       Chat.isTyping (fst after) = false /\
       snd after = []) /\
  (forall p w,
     trim (ChatWindow.input w) <> [] -> ChatWindow.isLoading w = false ->
     exists w1 body k,
       ChatWindow.sendMessage p r w = (w1, [FetchChat body k]) /\
       ChatWindow.messages w1
         = ChatWindow.messages w
             ++ Some (userMessage (trim (ChatWindow.input w)))
             :: (if r then [Some placeholder] else []) /\
       let after := ChatWindow.sendMessage_resume k o w1 in
       ChatWindow.messages (fst after)
         = ChatWindow.messages w
             ++ [Some (userMessage (trim (ChatWindow.input w)));
                 Some (mkMessage assistant
                                 (lit "Error: Failed to get answer.") None)] /\
       ChatWindow.isLoading (fst after) = false /\
       ChatWindow.toolUsed (fst after) = ChatWindow.toolUsed w /\
       snd after = []).
Proof.
  intros Ho.
  assert (settled_text o = errMsg) as Htext by by destruct o.
  split.
  - intros s Hq Hb Hs. eexists _, _, _.
    split; [by apply chat_dispatch|]. split; [done|].
    intros after. subst after.
    rewrite chat_resume_messages, Htext. split; [|done].
    apply reconcile_exchange.
  - intros p w Hq Hb. eexists _, _, _.
    split; [by apply window_dispatch|]. split; [done|].
    intros after. subst after.
    rewrite window_resume_messages, window_resume_flag, Htext.
    split; [apply reconcile_exchange|].
    split; [done|]. split; [by destruct o | done].
Qed.

Lemma failure_reconciled_witness :
  failed (HttpError 500 [] : Outcome ChatData) = true /\
  exists s1 body k,
    Chat.sendMessage true chat_ready = (s1, [FetchChat body k]) /\
    Chat.messages (fst (Chat.sendMessage_resume k (HttpError 500 []) s1))
      = [Some (userMessage (lit "What color are cats?"));
         Some (assistantMessage errMsg)].
Proof.
  split; [reflexivity|].
  destruct (failure_reconciled true (HttpError 500 []) eq_refl) as [Hc _].
  destruct (Hc chat_ready) as (s1 & body & k & H1 & _ & H2 & _);
    [vm_compute; discriminate | reflexivity | reflexivity |].
  exists s1, body, k. split; [exact H1 | exact H2].
Defined.

(** ** The advisory flag *)

Lemma usedBing_spec (data : ChatData) :
  usedBing data = true
  <-> exists tools, tools_used data = Some tools /\ bingSearch ∈ tools.
Proof.
  unfold usedBing. destruct (tools_used data) as [tools|].
  - rewrite bool_decide_eq_true. split; [eauto | by intros (? & [= <-] & ?)].
  - split; [done | by intros (? & ? & ?)].
Qed.

(** C4 as stated fails: a tool list that is not empty but lacks the entry
    "Bing Search" leaves [toolUsed] null in the chat window. *)
Lemma advisory_flag_counterexample :
  tools_used wiki = Some [lit "Wikipedia"] /\
  ChatWindow.toolUsed
    (fst (ChatWindow.sendMessage_resume (captured true []) (Ok wiki)
            (window_sent true window_ready))) = None.
Proof. split; reflexivity. Qed.

(** The page [chat.tsx] keeps no flag: its whole state after a successful
    response is the same whatever [tools_used] holds. *)
Lemma page_ignores_tools (k : Captured) (data : ChatData) s other :
  Chat.sendMessage_resume k (Ok data) s
  = Chat.sendMessage_resume k (Ok (mkChatData (answer data) other)) s.
Proof. done. Qed.

(** C4, as the code has it: in the chat window a successful response whose
    [tools_used] contains "Bing Search" sets [toolUsed] to "Invoking
    research tool...", which is then the banner shown; any other response
    leaves [toolUsed] as it was.  The transcript receives the answer and
    nothing else: it is the same whatever [tools_used] holds. *)
Theorem advisory_flag (k : Captured) (data : ChatData) (w : ChatWindow.State) :
  let after := fst (ChatWindow.sendMessage_resume k (Ok data) w) in
  ChatWindow.messages after
    = reconcile k (or_else (answer data) noAnswer) (ChatWindow.messages w) /\
  (forall other,
     ChatWindow.messages after
     = ChatWindow.messages
         (fst (ChatWindow.sendMessage_resume k
                 (Ok (mkChatData (answer data) other)) w))) /\
  (forall tools,
     tools_used data = Some tools -> lit "Bing Search" ∈ tools ->
     ChatWindow.toolUsed after = Some (lit "Invoking research tool...") /\
     ChatWindow.banner after = Some (lit "Invoking research tool...")) /\
  (usedBing data = false ->
     ChatWindow.toolUsed after = ChatWindow.toolUsed w).
Proof.
  intros after. subst after.
  rewrite window_resume_messages, window_resume_flag. simpl settled_text.
  split; [done|]. split; [|split].
  - intros other. by rewrite window_resume_messages.
  - intros tools Ht Hin.
    assert (usedBing data = true) as Hu by (apply usedBing_spec; eauto).
    unfold ChatWindow.banner. rewrite window_resume_flag. by rewrite Hu.
  - by intros ->.
Qed.

Lemma advisory_flag_witness :
  tools_used studyX = Some [lit "Bing Search"] /\
  ChatWindow.toolUsed
    (fst (ChatWindow.sendMessage_resume (captured true []) (Ok studyX)
            (window_sent true window_ready)))
  = Some (lit "Invoking research tool...").
Proof.
  split; [reflexivity|].
  destruct (advisory_flag (captured true []) studyX
              (window_sent true window_ready)) as (_ & _ & Hset & _).
  apply (Hset [lit "Bing Search"]); [reflexivity|].
  apply list_elem_of_here.
Defined.

(** ** Uploads *)

(** C7 as stated fails for the uploader component: on a failed upload it
    resets [uploading] and does nothing else.  It makes no [onUpload] call,
    so its parent is told nothing and no message is appended anywhere. *)
Lemma upload_failure_counterexample :
  failed (HttpError 500 [] : Outcome UploadResult) = true /\
  DocumentUploader.handleUpload_resume (HttpError 500 []) uploader_busy
  = (DocumentUploader.mkState (Some (lit "paper.pdf")) false, []).
Proof. split; reflexivity. Qed.

(** C7, as the code has it: when an upload fails (network error,
    non-success status or unreadable body) the session is left as it was.
    In the page [chat.tsx], [sessionId], [summary] and [personality] keep
    their values, exactly one assistant message, "Error: Failed to
    summarize document.", is appended to the transcript, and [uploading] is
    false again.  The uploader component makes no [onUpload] call, so no
    session is created; it only resets [uploading]. *)
Theorem upload_failure (o : Outcome UploadResult) :
  failed o = true ->
  (forall s,
     let after := Chat.handleUpload_resume o s in
     Chat.sessionId (fst after) = Chat.sessionId s /\
     Chat.summary (fst after) = Chat.summary s /\
     Chat.personality (fst after) = Chat.personality s /\
     Chat.messages (fst after)
       = Chat.messages s
           ++ [Some (mkMessage assistant
                       (lit "Error: Failed to summarize document.") None)] /\
     Chat.uploading (fst after) = false /\
     snd after = []) /\
  (forall u,
     DocumentUploader.handleUpload_resume o u
     = (DocumentUploader.mkState (DocumentUploader.file u) false, [])).
Proof. intros Ho. by destruct o. Qed.

Lemma upload_failure_witness :
  failed (NetworkError : Outcome UploadResult) = true /\
  Chat.sessionId (fst (Chat.handleUpload_resume NetworkError chat_nosession))
    = None /\
  Chat.messages (fst (Chat.handleUpload_resume NetworkError chat_nosession))
    = [Some (assistantMessage uploadErr)].
Proof.
  split; [reflexivity|].
  destruct (upload_failure NetworkError eq_refl) as [Hc _].
  destruct (Hc chat_nosession) as (H1 & _ & _ & H2 & _).
  split; [exact H1 | exact H2].
Defined.

(** ** Order of the transcript *)


(** ** Persistence of the banner *)

Lemma window_step_flag p (e : ChatWindow.Event) (sys : ChatWindow.System) :
  ChatWindow.toolUsed (ChatWindow.ui sys) = Some invoking ->
  ChatWindow.toolUsed (ChatWindow.ui (ChatWindow.step p e sys)) = Some invoking.
Proof.
  intros Hset.
  assert (forall r,
    ChatWindow.toolUsed (fst (ChatWindow.sendMessage p r (ChatWindow.ui sys)))
    = Some invoking) as Hsend.
  { intros r.
    by destruct (window_send_cases p r (ChatWindow.ui sys)) as [-> | [_ ->]]. }
  destruct e as [v | r | key shift | n o]; cbn [ChatWindow.step].
  - done.
  - apply Hsend.
  - unfold ChatWindow.handleKeyPress.
    destruct (bool_decide (key = lit "Enter") && negb shift);
      [apply Hsend | done].
  - destruct (ChatWindow.inflight sys !! n) as [[f | body k]|]; try done.
    unfold ChatWindow.issue. cbn [ChatWindow.ui].
    rewrite window_resume_flag.
    destruct o as [ | | | data]; try done. by destruct (usedBing data).
Qed.

Lemma window_run_flag p (evs : list ChatWindow.Event) (sys : ChatWindow.System) :
  ChatWindow.toolUsed (ChatWindow.ui sys) = Some invoking ->
  ChatWindow.toolUsed (ChatWindow.ui (ChatWindow.run p evs sys)) = Some invoking.
Proof.
  revert sys. induction evs as [|e evs IH]; intros sys Hset; [done|].
  rewrite window_run_cons. by apply IH, window_step_flag.
Qed.

(** C10: when a chat request of the chat window settles successfully with
    a [tools_used] list that contains "Bing Search", [toolUsed] becomes
    "Invoking research tool..."; after that no sequence of events (further
    questions with or without research, failed or successful responses,
    typing) changes it, so the banner stays on screen. *)
Theorem banner_persists (p : ChatWindow.Props) (sys : ChatWindow.System)
    (n : nat) (body : ChatRequest) (k : Captured)
    (data : ChatData) (tools : list js_string) :
  ChatWindow.inflight sys !! n = Some (FetchChat body k) ->
  tools_used data = Some tools -> lit "Bing Search" ∈ tools ->
  let sys1 := ChatWindow.step p (ChatWindow.ChatSettles n (Ok data)) sys in
  ChatWindow.toolUsed (ChatWindow.ui sys1)
    = Some (lit "Invoking research tool...") /\
  forall evs,
    ChatWindow.toolUsed (ChatWindow.ui (ChatWindow.run p evs sys1))
      = Some (lit "Invoking research tool...") /\
    ChatWindow.banner (ChatWindow.ui (ChatWindow.run p evs sys1))
      = Some (lit "Invoking research tool...").
Proof.
  intros Hn Ht Hin sys1.
  assert (ChatWindow.toolUsed (ChatWindow.ui sys1) = Some invoking) as Hset.
  { subst sys1. cbn [ChatWindow.step]. rewrite Hn.
    unfold ChatWindow.issue. cbn [ChatWindow.ui].
    rewrite window_resume_flag.
    assert (usedBing data = true) as -> by (apply usedBing_spec; eauto).
    done. }
  split; [exact Hset|]. intros evs.
  pose proof (window_run_flag p evs sys1 Hset) as Hrun.
  split; [exact Hrun|]. unfold ChatWindow.banner. by rewrite Hrun.
Qed.

Lemma banner_persists_witness :
  let sys := ChatWindow.run window_props
               [ChatWindow.InputChange cats; ChatWindow.Send true]
               ChatWindow.boot in
  let later := [ChatWindow.InputChange cats; ChatWindow.Send false;
                ChatWindow.ChatSettles 0 (HttpError 500 [])] in
  ChatWindow.toolUsed (ChatWindow.ui sys) = None /\
  ChatWindow.banner
    (ChatWindow.ui
       (ChatWindow.run window_props later
          (ChatWindow.step window_props (ChatWindow.ChatSettles 0 (Ok studyX))
             sys)))
  = Some (lit "Invoking research tool...").
Proof.
  intros sys later. split; [reflexivity|].
  destruct (banner_persists window_props sys 0
              (mkChatRequest (lit "What color are cats?") (Some (lit "s1"))
                             (lit "friendly") true)
              (captured true []) studyX [lit "Bing Search"]) as [_ Hlater];
    [reflexivity | reflexivity | apply list_elem_of_here |].
  apply Hlater.
Defined.

(** * Further properties *)

(** ** Trimming *)

Lemma trimStart_fixed (s : js_string) (c : N) :
  is_white c = false -> trimStart (c :: s) = c :: s.
Proof. intros Hc. simpl. by rewrite Hc. Qed.

Lemma trimStart_idem (s : js_string) : trimStart (trimStart s) = trimStart s.
Proof.
  destruct (trimStart s) as [|c t] eqn:Hs; [done|].
  apply trimStart_fixed. by apply trimStart_head in Hs.
Qed.

Lemma trimStart_snoc (s : js_string) (c : N) :
  is_white c = false -> trimStart (s ++ [c]) = trimStart s ++ [c].
Proof.
  intros Hc. induction s as [|d s IH]; simpl.
  - by rewrite Hc.
  - by destruct (is_white d).
Qed.

Lemma trimEnd_cons (s : js_string) (c : N) :
  is_white c = false -> trimEnd (c :: s) = c :: trimEnd s.
Proof.
  intros Hc. unfold trimEnd. simpl.
  by rewrite trimStart_snoc, rev_app_distr.
Qed.

Lemma trimEnd_idem (s : js_string) : trimEnd (trimEnd s) = trimEnd s.
Proof. unfold trimEnd. by rewrite rev_involutive, trimStart_idem. Qed.

Lemma trim_idem (s : js_string) : trim (trim s) = trim s.
Proof.
  unfold trim. destruct (trimStart s) as [|c t] eqn:Hs; [done|].
  apply trimStart_head in Hs.
  rewrite trimEnd_cons, trimStart_fixed by done.
  by rewrite <- trimEnd_cons, trimEnd_idem.
Qed.

Lemma trimmed_trim (s : js_string) : trim s <> [] -> trimmed (trim s).
Proof. intros Hs. split; [done | apply trim_idem]. Qed.

(** A trimmed question neither starts nor ends with white space. *)
Lemma trimmed_ends (q : js_string) :
  trimmed q ->
  (exists c t, q = c :: t /\ is_white c = false) /\
  (exists c t, q = t ++ [c] /\ is_white c = false).
Proof.
  intros [Hne Hq]. unfold trim in Hq. split.
  - destruct (trimStart q) as [|c t] eqn:Hs.
    { by rewrite <- Hq in Hne. }
    pose proof (trimStart_head _ _ _ Hs) as Hc.
    rewrite trimEnd_cons in Hq by done. eauto.
  - unfold trimEnd in Hq.
    destruct (trimStart (rev (trimStart q))) as [|c t] eqn:Hs.
    { by rewrite <- Hq in Hne. }
    pose proof (trimStart_head _ _ _ Hs) as Hc.
    simpl in Hq. eauto.
Qed.

(** ** The components follow the protocol *)

Lemma chat_send_shape (r : bool) (s : Chat.State) :
  Chat.sendMessage r s = (s, []) \/
  Chat.sendMessage r s
    = (Chat.setMessages (push (assistantMessage guidance)) s, []) \/
  (trim (Chat.input s) <> [] /\ Chat.isTyping s = false /\
   truthy_opt (Chat.sessionId s) = true /\
   Chat.sendMessage r s
     = (chat_sent r s,
        [FetchChat (mkChatRequest (trim (Chat.input s)) (Chat.sessionId s)
                                  (Chat.personality s) r)
                   (captured r (Chat.messages s))])).
Proof.
  destruct (decide (trim (Chat.input s) = [])) as [Hq | Hq].
  { left. apply chat_guard. by left. }
  destruct (Chat.isTyping s) eqn:Hb.
  { left. apply chat_guard. by right. }
  destruct (truthy_opt (Chat.sessionId s)) eqn:Hs.
  - right. right. do 3 (split; [done|]). by apply chat_dispatch.
  - right. left. by apply chat_guidance.
Qed.

Lemma window_send_shape (p : ChatWindow.Props) (r : bool) (w : ChatWindow.State) :
  ChatWindow.sendMessage p r w = (w, []) \/
  (trim (ChatWindow.input w) <> [] /\ ChatWindow.isLoading w = false /\
   ChatWindow.sendMessage p r w
     = (window_sent r w,
        [FetchChat (mkChatRequest (trim (ChatWindow.input w))
                                  (Some (ChatWindow.sessionId p))
                                  (ChatWindow.personality p) r)
                   (captured r (ChatWindow.messages w))])).
Proof.
  destruct (decide (trim (ChatWindow.input w) = [])) as [Hq | Hq].
  { left. apply window_guard. by left. }
  destruct (ChatWindow.isLoading w) eqn:Hb.
  { left. apply window_guard. by right. }
  right. do 2 (split; [done|]). by apply window_dispatch.
Qed.

Lemma chat_step_move (e : Chat.Event) (sys : Chat.System) :
  move (chat_core sys) (chat_core (Chat.step e sys)).
Proof.
  assert (forall r,
    move (chat_core sys)
      (chat_core (Chat.issue (Chat.sendMessage r (Chat.ui sys))
                             (Chat.inflight sys)))) as Hsend.
  { intros r. unfold chat_core, Chat.issue.
    destruct (chat_send_shape r (Chat.ui sys))
      as [-> | [-> | (Hq & Hb & _ & ->)]];
      cbn [fst snd Chat.ui Chat.inflight].
    - rewrite app_nil_r. constructor.
    - rewrite app_nil_r. chat_simpl. constructor.
    - rewrite Hb. unfold chat_sent. cbn [Chat.messages Chat.isTyping].
      by apply (move_dispatch _ _ r (Chat.input (Chat.ui sys))). }
  unfold chat_core in *.
  destruct e as [v | files | v | | r | key shift | n o | n o];
    cbn [Chat.step].
  - constructor.
  - destruct files as [[|f fs]|]; constructor.
  - constructor.
  - unfold Chat.handleUpload, Chat.issue.
    destruct (Chat.file (Chat.ui sys)) as [f|];
      cbn [fst snd Chat.ui Chat.inflight].
    + chat_simpl. constructor.
    + rewrite app_nil_r. constructor.
  - apply Hsend.
  - unfold Chat.handleKeyPress.
    destruct (bool_decide (key = lit "Enter") && negb shift); [apply Hsend|].
    unfold Chat.issue. cbn [fst snd Chat.ui Chat.inflight].
    rewrite app_nil_r. constructor.
  - destruct (Chat.inflight sys !! n) as [[f | body k]|] eqn:Hn;
      try constructor.
    unfold Chat.issue. cbn [Chat.ui Chat.inflight].
    destruct o as [ | st tx | | data]; chat_simpl; rewrite app_nil_r.
    + by apply (move_uploaded _ _ _ n f false).
    + by apply (move_uploaded _ _ _ n f false).
    + by apply (move_uploaded _ _ _ n f false).
    + by apply (move_uploaded _ _ _ n f true).
  - destruct (Chat.inflight sys !! n) as [[f | body k]|] eqn:Hn;
      try constructor.
    unfold Chat.issue. cbn [Chat.ui Chat.inflight].
    rewrite chat_resume_messages, chat_resume_idle, chat_resume_calls, app_nil_r.
    by eapply move_settled.
Qed.

Lemma window_step_move p (e : ChatWindow.Event) (sys : ChatWindow.System) :
  move (window_core sys) (window_core (ChatWindow.step p e sys)).
Proof.
  assert (forall r,
    move (window_core sys)
      (window_core (ChatWindow.issue
                      (ChatWindow.sendMessage p r (ChatWindow.ui sys))
                      (ChatWindow.inflight sys)))) as Hsend.
  { intros r. unfold window_core, ChatWindow.issue.
    destruct (window_send_shape p r (ChatWindow.ui sys))
      as [-> | (Hq & Hb & ->)];
      cbn [fst snd ChatWindow.ui ChatWindow.inflight].
    - rewrite app_nil_r. constructor.
    - rewrite Hb. unfold window_sent.
      cbn [ChatWindow.messages ChatWindow.isLoading].
      by apply (move_dispatch _ _ r (ChatWindow.input (ChatWindow.ui sys))). }
  unfold window_core in *.
  destruct e as [v | r | key shift | n o]; cbn [ChatWindow.step].
  - constructor.
  - apply Hsend.
  - unfold ChatWindow.handleKeyPress.
    destruct (bool_decide (key = lit "Enter") && negb shift); [apply Hsend|].
    unfold ChatWindow.issue. cbn [fst snd ChatWindow.ui ChatWindow.inflight].
    rewrite app_nil_r. constructor.
  - destruct (ChatWindow.inflight sys !! n) as [[f | body k]|] eqn:Hn;
      try constructor.
    unfold ChatWindow.issue. cbn [ChatWindow.ui ChatWindow.inflight].
    rewrite window_resume_messages, window_resume_idle, window_resume_calls,
      app_nil_r.
    by eapply move_settled.
Qed.

(** ** What the protocol keeps *)

Lemma no_chats_asks (msgs : Transcript) (calls : list Call) :
  chatsOf calls = [] -> Forall (asks msgs) calls.
Proof.
  induction calls as [|[f | body k] calls IH]; simpl; intros Hc.
  - constructor.
  - constructor; [done | by apply IH].
  - discriminate.
Qed.

Lemma asks_app (msgs extra : Transcript) (c : Call) :
  asks msgs c -> asks (msgs ++ extra) c.
Proof.
  destruct c as [f | body k]; [done|]. simpl. intros (Hr & Hq & Hi).
  split; [done|]. split; [done|].
  destruct (useResearch k); [|done].
  destruct Hi as (j & Hk & Hj). exists j. split; [done|].
  by apply lookup_app_l_Some.
Qed.

Lemma tracked_app (msgs extra : Transcript) (calls : list Call) :
  tracked msgs calls ->
  Forall (fun slot => forall m, slot = Some m -> isLoading m <> Some true) extra ->
  tracked (msgs ++ extra) calls.
Proof.
  intros Ht Hextra i m Hi Hload.
  apply lookup_app_Some in Hi as [Hi | [_ Hi]]; [by eapply Ht|].
  rewrite Forall_lookup in Hextra. by destruct (Hextra _ _ Hi m eq_refl).
Qed.

Lemma users_trimmed_app (msgs extra : Transcript) :
  users_trimmed msgs ->
  Forall (fun slot => forall m, slot = Some m -> sender m = user ->
                                trimmed (content m)) extra ->
  users_trimmed (msgs ++ extra).
Proof.
  intros Hu Hextra i m Hi Hs.
  apply lookup_app_Some in Hi as [Hi | [_ Hi]]; [by eapply Hu|].
  rewrite Forall_lookup in Hextra. by apply (Hextra _ _ Hi m).
Qed.

Lemma sound_push (text : js_string) msgs busy calls :
  sound (msgs, busy, calls) ->
  sound (push (assistantMessage text) msgs, busy, calls).
Proof.
  intros [Hc Ht Hu Ha]. simpl in *. split; simpl.
  - by apply consistent_push.
  - apply tracked_app; [done|]. apply Forall_singleton. by intros m [= <-].
  - apply users_trimmed_app; [done|]. apply Forall_singleton.
    by intros m [= <-].
  - revert Ha. apply List.Forall_impl. intros c. apply asks_app.
Qed.

Lemma sound_settled n body k text msgs busy calls :
  calls !! n = Some (FetchChat body k) ->
  sound (msgs, busy, calls) ->
  sound (reconcile k text msgs, false, delete n calls).
Proof.
  intros Hn [Hc Ht Hu Ha]. simpl in *.
  destruct (consistent_settle_chat _ _ _ text _ _ _ Hn Hc) as [Hc' _].
  destruct (chatsOf_delete_chat _ _ _ _ Hn (c_single _ _ _ Hc)) as [Hk Hnone].
  pose proof (c_awaits _ _ _ Hc) as Haw.
  rewrite Hk, Forall_singleton in Haw.
  assert (forall j m, msgs !! j = Some (Some m) -> isLoading m = Some true ->
                      useResearch k = true /\ placeholderIndex k = Some j)
    as Honly.
  { intros j m Hj Hl. destruct (Ht j m Hj Hl) as (k' & Hin & Hr & Hi).
    rewrite Hk in Hin. apply list_elem_of_singleton in Hin. by subst k'. }
  split; simpl; [done | | | by apply no_chats_asks].
  - intros j m Hj Hl. exfalso. unfold reconcile in Hj.
    destruct (useResearch k) eqn:Hr, (placeholderIndex k) as [i|] eqn:Hi.
    + rewrite assign_in_range in Hj by (eapply lookup_lt_Some; by apply Haw).
      destruct (decide (i = j)) as [<- | Hne].
      * rewrite list_lookup_insert_eq in Hj
          by (eapply lookup_lt_Some; by apply Haw).
        injection Hj as <-. discriminate.
      * rewrite list_lookup_insert_ne in Hj by done.
        destruct (Honly j m Hj Hl) as [_ [= ?]]. done.
    + apply lookup_app_Some in Hj as [Hj | [_ Hj]].
      * by destruct (Honly j m Hj Hl).
      * apply list_lookup_singleton_Some in Hj as [_ [= <-]]. discriminate.
    + apply lookup_app_Some in Hj as [Hj | [_ Hj]].
      * by destruct (Honly j m Hj Hl).
      * apply list_lookup_singleton_Some in Hj as [_ [= <-]]. discriminate.
    + apply lookup_app_Some in Hj as [Hj | [_ Hj]].
      * by destruct (Honly j m Hj Hl).
      * apply list_lookup_singleton_Some in Hj as [_ [= <-]]. discriminate.
  - intros j m Hj Hs. unfold reconcile in Hj.
    assert (forall l : Transcript,
              (l ++ [Some (assistantMessage text)]) !! j = Some (Some m) ->
              l = msgs -> trimmed (content m)) as Hpush.
    { intros l Hl ->. apply lookup_app_Some in Hl as [Hl | [_ Hl]].
      - by eapply Hu.
      - apply list_lookup_singleton_Some in Hl as [_ [= <-]]. discriminate. }
    destruct (useResearch k) eqn:Hr, (placeholderIndex k) as [i|] eqn:Hi;
      try (by eapply Hpush).
    rewrite assign_in_range in Hj by (eapply lookup_lt_Some; by apply Haw).
    destruct (decide (i = j)) as [<- | Hne].
    + rewrite list_lookup_insert_eq in Hj
        by (eapply lookup_lt_Some; by apply Haw).
      injection Hj as <-. discriminate.
    + rewrite list_lookup_insert_ne in Hj by done. by eapply Hu.
Qed.

Lemma sound_dispatch (r : bool) (inp : js_string) (body : ChatRequest)
    (msgs : Transcript) (calls : list Call) :
  trim inp <> [] -> question body = trim inp -> research body = r ->
  sound (msgs, false, calls) ->
  sound (msgs ++ Some (userMessage (trim inp))
              :: (if r then [Some placeholder] else []),
         true, calls ++ [FetchChat body (captured r msgs)]).
Proof.
  intros Hq Hbody Hres [Hc Ht Hu Ha]. simpl in *.
  assert (chatsOf calls = []) as Hnone by by apply (c_busy _ _ _ Hc).
  split; simpl.
  - by apply consistent_dispatch.
  - intros j m Hj Hl. rewrite chatsOf_app, Hnone. simpl.
    exists (captured r msgs).
    apply lookup_app_Some in Hj as [Hj | [Hge Hj]].
    { destruct (Ht j m Hj Hl) as (k & Hin & _). rewrite Hnone in Hin.
      by apply elem_of_nil in Hin. }
    destruct (j - length msgs) as [|[|d]] eqn:Hd; simpl in Hj.
    + injection Hj as <-. discriminate.
    + destruct r; simpl in Hj; [|discriminate].
      split; [apply list_elem_of_here|]. split; [done|].
      simpl. f_equal. lia.
    + destruct r; simpl in Hj; [|discriminate]. by destruct d.
  - apply users_trimmed_app; [done|].
    apply List.Forall_cons.
    { intros m [= <-] _. by apply trimmed_trim. }
    destruct r; [apply Forall_singleton | apply List.Forall_nil].
    by intros m [= <-].
  - apply Forall_app. split.
    { apply no_chats_asks, Hnone. }
    apply Forall_singleton. simpl.
    split; [done|]. split; [by rewrite Hbody; apply trimmed_trim|].
    destruct r; [|done].
    exists (length msgs). split; [f_equal; lia|].
    rewrite lookup_app_r by lia.
    replace (length msgs - length msgs) with 0 by lia. simpl.
    by rewrite Hbody.
Qed.

Lemma sound_move (c c' : Core) : move c c' -> sound c -> sound c'.
Proof.
  destruct 1 as [c | msgs busy calls text | msgs busy calls f
                | msgs busy calls n f good Hn | msgs calls r inp body Hq Hb Hr
                | msgs busy calls n body k text Hn]; intros Hs.
  - done.
  - by apply sound_push.
  - destruct Hs as [Hc Ht Hu Ha]. simpl in *. split; simpl; try done.
    + by apply consistent_issue_upload.
    + unfold tracked in *. rewrite chatsOf_app. simpl. by rewrite app_nil_r.
    + apply Forall_app. split; [done | by apply Forall_singleton].
  - assert (sound (msgs, busy, delete n calls)) as Hs'.
    { destruct Hs as [Hc Ht Hu Ha]. simpl in *. split; simpl; try done.
      - by eapply consistent_settle_upload.
      - unfold tracked in *. by rewrite (chatsOf_delete_upload _ _ _ Hn).
      - by apply Forall_delete. }
    destruct good; [done | by apply sound_push].
  - by apply sound_dispatch.
  - by eapply sound_settled.
Qed.

Lemma sound_boot : sound ([], false, []).
Proof.
  split; simpl.
  - apply consistent_boot.
  - by intros i m Hi.
  - by intros i m Hi.
  - constructor.
Qed.

Lemma chat_run_sound (evs : list Chat.Event) (sys : Chat.System) :
  sound (chat_core sys) -> sound (chat_core (Chat.run evs sys)).
Proof.
  revert sys. induction evs as [|e evs IH]; intros sys Hs; [done|].
  rewrite chat_run_cons. apply IH.
  eapply sound_move; [apply chat_step_move | done].
Qed.

Lemma window_run_sound p (evs : list ChatWindow.Event) (sys : ChatWindow.System) :
  sound (window_core sys) -> sound (window_core (ChatWindow.run p evs sys)).
Proof.
  revert sys. induction evs as [|e evs IH]; intros sys Hs; [done|].
  rewrite window_run_cons. apply IH.
  eapply sound_move; [apply window_step_move | done].
Qed.

Lemma chat_reach_sound (evs : list Chat.Event) :
  sound (chat_core (Chat.run evs Chat.boot)).
Proof. apply chat_run_sound, sound_boot. Qed.

Lemma window_reach_sound p (evs : list ChatWindow.Event) :
  sound (window_core (ChatWindow.run p evs ChatWindow.boot)).
Proof. apply window_run_sound, sound_boot. Qed.

(** ** The placeholder *)



(** ** Questions *)

Lemma sound_user (msgs : Transcript) (busy : bool) (calls : list Call) i m :
  sound (msgs, busy, calls) ->
  msgs !! i = Some (Some m) -> sender m = user ->
  content m <> [] /\ trim (content m) = content m /\
  (exists c t, content m = c :: t /\ is_white c = false) /\
  (exists c t, content m = t ++ [c] /\ is_white c = false).
Proof.
  intros [_ _ Hu _] Hi Hs. simpl in *.
  pose proof (Hu i m Hi Hs) as Htr.
  destruct (trimmed_ends _ Htr). by destruct Htr.
Qed.

(** X5: in every state a run reaches, every user message of the
    transcript holds a question that is not empty and is unchanged by
    trimming: it begins and ends with a character that is not white space.
    No blank or untrimmed question ever enters the transcript. *)
Theorem user_messages_trimmed :
  (forall evs i m,
     Chat.messages (Chat.ui (Chat.run evs Chat.boot)) !! i = Some (Some m) ->
     sender m = user ->
     content m <> [] /\ trim (content m) = content m /\
     (exists c t, content m = c :: t /\ is_white c = false) /\
     (exists c t, content m = t ++ [c] /\ is_white c = false)) /\
  (forall p evs i m,
     ChatWindow.messages (ChatWindow.ui (ChatWindow.run p evs ChatWindow.boot))
       !! i = Some (Some m) ->
     sender m = user ->
     content m <> [] /\ trim (content m) = content m /\
     (exists c t, content m = c :: t /\ is_white c = false) /\
     (exists c t, content m = t ++ [c] /\ is_white c = false)).
Proof.
  split.
  - intros evs i m. apply (sound_user _ _ _ _ _ (chat_reach_sound evs)).
  - intros p evs i m. apply (sound_user _ _ _ _ _ (window_reach_sound p evs)).
Qed.

Lemma user_messages_trimmed_witness :
  let sys := ChatWindow.run window_props
               [ChatWindow.InputChange cats; ChatWindow.Send false]
               ChatWindow.boot in
  ChatWindow.messages (ChatWindow.ui sys) !! 0
    = Some (Some (userMessage (lit "What color are cats?"))) /\
  trim (lit "What color are cats?") = lit "What color are cats?".
Proof.
  intros sys. split; [reflexivity|].
  destruct user_messages_trimmed as [_ Hw].
  destruct (Hw window_props
              [ChatWindow.InputChange cats; ChatWindow.Send false] 0
              (userMessage (lit "What color are cats?")) eq_refl eq_refl)
    as (_ & Htrim & _).
  exact Htrim.
Defined.

(** ** The guard, exactly *)

Lemma push_changes (m : Message) (l : Transcript) : push m l <> l.
Proof.
  intros H. apply (f_equal length) in H. unfold push in H.
  rewrite length_app in H. simpl in H. lia.
Qed.

(** X1: [sendMessage] leaves the component untouched and sends nothing
    exactly when the input holds nothing but white space (spaces, tabs,
    line breaks, no-break spaces and the like; the empty input included)
    or a request is already in flight.  In every other case something
    happens: a message is appended or a request goes out. *)
Theorem send_ignored_iff (r : bool) (s : Chat.State)
    (p : ChatWindow.Props) (w : ChatWindow.State) :
  (Chat.sendMessage r s = (s, [])
   <-> forallb is_white (Chat.input s) = true \/ Chat.isTyping s = true) /\
  (ChatWindow.sendMessage p r w = (w, [])
   <-> forallb is_white (ChatWindow.input w) = true
       \/ ChatWindow.isLoading w = true).
Proof.
  split; split.
  - intros Hsame.
    destruct (decide (trim (Chat.input s) = [])) as [Hq | Hq].
    { left. by apply trim_nil. }
    destruct (Chat.isTyping s) eqn:Hb; [by right|]. exfalso.
    destruct (truthy_opt (Chat.sessionId s)) eqn:Hs.
    + rewrite chat_dispatch in Hsame by done. discriminate.
    + rewrite chat_guidance in Hsame by done.
      injection Hsame as Hsame. apply (f_equal Chat.messages) in Hsame.
      by apply push_changes in Hsame.
  - intros [Hw | Hb]; apply chat_guard; [left; by apply trim_nil | by right].
  - intros Hsame.
    destruct (decide (trim (ChatWindow.input w) = [])) as [Hq | Hq].
    { left. by apply trim_nil. }
    destruct (ChatWindow.isLoading w) eqn:Hb; [by right|]. exfalso.
    rewrite window_dispatch in Hsame by done. discriminate.
  - intros [Hw | Hb]; apply window_guard; [left; by apply trim_nil | by right].
Qed.

(** ** From upload to question *)



(** ** The screen and the handlers agree *)

(** X7: a send button that is rendered and not disabled always sends.  In
    the page the chat screen is shown only with a truthy session id and
    the buttons are disabled while a request is in flight or the input is
    blank, so a click passes every guard of [sendMessage]: it is neither
    ignored nor answered with the upload guidance, and exactly one request
    goes out.  The Enter key in the enabled message box either does
    nothing (blank input, Shift held, another key) or sends a plain
    request.  The chat window behaves alike. *)
Theorem enabled_send_dispatches (r : bool) :
  (forall s,
     ChatView.enabled (Chat.Send r) s = true ->
     exists s1 body k,
       Chat.sendMessage r s = (s1, [FetchChat body k]) /\
       research body = r /\ Chat.isTyping s1 = true /\ Chat.input s1 = []) /\
  (forall s key shift,
     ChatView.enabled (Chat.KeyDown key shift) s = true ->
     Chat.handleKeyPress key shift s = (s, []) \/
     exists s1 body k,
       Chat.handleKeyPress key shift s = (s1, [FetchChat body k]) /\
       research body = false /\ key = lit "Enter" /\ shift = false) /\
  (forall p w,
     WindowView.enabled (ChatWindow.Send r) w = true ->
     exists w1 body k,
       ChatWindow.sendMessage p r w = (w1, [FetchChat body k]) /\
       research body = r /\ ChatWindow.isLoading w1 = true /\
       ChatWindow.input w1 = []).
Proof.
  split; [|split].
  - intros s He. simpl in He.
    unfold ChatView.uploadScreen, ChatView.sendDisabled in He.
    apply andb_true_iff in He as [Hs Hd].
    rewrite negb_involutive in Hs.
    apply negb_true_iff, orb_false_iff in Hd as [Hb Hq].
    apply negb_false_iff, truthy_nonempty in Hq.
    eexists _, _, _. split; [by apply chat_dispatch | done].
  - intros s key shift He. simpl in He.
    unfold ChatView.uploadScreen, ChatView.inputDisabled in He.
    apply andb_true_iff in He as [Hs Hb].
    rewrite negb_involutive in Hs.
    apply negb_true_iff in Hb.
    unfold Chat.handleKeyPress.
    destruct (bool_decide (key = lit "Enter")) eqn:Hk; [|by left].
    apply bool_decide_eq_true in Hk.
    destruct shift; simpl; [by left|].
    destruct (decide (trim (Chat.input s) = [])) as [Hq | Hq].
    + left. apply chat_guard. by left.
    + right. eexists _, _, _. split; [by apply chat_dispatch | done].
  - intros p w He. simpl in He. unfold WindowView.sendDisabled in He.
    apply negb_true_iff, orb_false_iff in He as [Hb Hq].
    apply negb_false_iff, truthy_nonempty in Hq.
    eexists _, _, _. split; [by apply window_dispatch | done].
Qed.

Lemma enabled_send_dispatches_witness :
  ChatView.enabled (Chat.Send true) chat_ready = true /\
  exists s1 body k,
    Chat.sendMessage true chat_ready = (s1, [FetchChat body k]) /\
    research body = true.
Proof.
  split; [reflexivity|].
  destruct (enabled_send_dispatches true) as [Hc _].
  destruct (Hc chat_ready eq_refl) as (s1 & body & k & H1 & H2 & _).
  exists s1, body, k. split; [exact H1 | exact H2].
Defined.

(** ** Choosing no file *)

(** X10: a change event of the file input that carries no file is handled
    differently by the two uploaders.  The page keeps the file chosen
    before, and its upload handler still uploads that file.  The uploader
    component forgets the file: its upload button is disabled and its
    upload handler does nothing.  With a file in the event both remember
    the first one. *)
Theorem empty_selection (f : File) :
  (forall s,
     Chat.file s = Some f ->
     Chat.handleFileChange (Some []) s = s /\
     Chat.handleFileChange None s = s /\
     snd (Chat.handleUpload (Chat.handleFileChange (Some []) s))
       = [FetchUpload f]) /\
  (forall u,
     let u' := DocumentUploader.handleFileChange (Some []) u in
     DocumentUploader.file u' = None /\
     UploaderView.uploadDisabled u' = true /\
     DocumentUploader.handleUpload u' = (u', []) /\
     DocumentUploader.handleFileChange None u = u) /\
  (forall s u g rest,
     Chat.file (Chat.handleFileChange (Some (g :: rest)) s) = Some g /\
     DocumentUploader.file
       (DocumentUploader.handleFileChange (Some (g :: rest)) u) = Some g).
Proof.
  split; [|split].
  - intros s Hf. simpl. unfold Chat.handleUpload. by rewrite Hf.
  - intros u u'. subst u'. unfold UploaderView.uploadDisabled. simpl.
    by rewrite orb_true_r.
  - done.
Qed.

Lemma empty_selection_witness :
  Chat.file chat_nosession = Some (lit "paper.pdf") /\
  snd (Chat.handleUpload (Chat.handleFileChange (Some []) chat_nosession))
    = [FetchUpload (lit "paper.pdf")].
Proof.
  split; [reflexivity|].
  destruct (empty_selection (lit "paper.pdf")) as [Hc _].
  destruct (Hc chat_nosession eq_refl) as (_ & _ & H). exact H.
Defined.

(** ** The page under the events its screen delivers *)

Lemma uploadsOf_app (a b : list Call) :
  uploadsOf (a ++ b) = uploadsOf a ++ uploadsOf b.
Proof. apply omap_app. Qed.

Lemma uploadsOf_split (calls : list Call) (n : nat) (c : Call) :
  calls !! n = Some c ->
  uploadsOf calls
    = uploadsOf (take n calls) ++ uploadsOf [c] ++ uploadsOf (drop (S n) calls) /\
  uploadsOf (delete n calls)
    = uploadsOf (take n calls) ++ uploadsOf (drop (S n) calls).
Proof.
  intros Hn. split.
  - rewrite <- (take_drop_middle calls n c Hn) at 1.
    rewrite uploadsOf_app. f_equal. apply (uploadsOf_app [c]).
  - by rewrite delete_take_drop, uploadsOf_app.
Qed.




Lemma uploadsOf_nil_lookup (calls : list Call) (n : nat) f :
  uploadsOf calls = [] -> calls !! n = Some (FetchUpload f) -> False.
Proof.
  intros Hnone Hn. destruct (uploadsOf_split _ _ _ Hn) as [Heq _].
  rewrite Hnone in Heq. simpl in Heq.
  by destruct (uploadsOf (take n calls)).
Qed.

















(** ** One upload at a time *)





(** ** The summary block *)

(** X13: after a successful upload with a non-empty session id the chat
    screen is shown; its summary block appears exactly when the response
    carries a non-empty summary, and then shows that summary.  A response
    without summary, or with an empty one, stores the empty string and the
    block is left out. *)
Theorem summary_shown (s : Chat.State) (data : UploadResult) :
  up_session_id data <> [] ->
  let s1 := fst (Chat.handleUpload_resume (Ok data) s) in
  ChatView.uploadScreen s1 = false /\
  (up_summary data = None \/ up_summary data = Some [] ->
     Chat.summary s1 = [] /\ ChatView.summaryShown s1 = false) /\
  (forall t, up_summary data = Some t -> t <> [] ->
     Chat.summary s1 = t /\ ChatView.summaryShown s1 = true).
Proof.
  intros Hid s1. subst s1.
  assert (truthy (up_session_id data) = true) as Ht by by apply truthy_nonempty.
  unfold ChatView.summaryShown, ChatView.uploadScreen. chat_simpl.
  rewrite Ht. simpl. split; [done|]. split.
  - intros Hnone. by rewrite (or_else_missing _ _ Hnone).
  - intros t -> Hne. rewrite or_else_present by done.
    split; [done | by apply truthy_nonempty].
Qed.

Lemma summary_shown_witness :
  ChatView.summaryShown
    (fst (Chat.handleUpload_resume
            (Ok (mkUploadResult (lit "s1") None None)) chat_nosession))
  = false.
Proof.
  destruct (summary_shown chat_nosession (mkUploadResult (lit "s1") None None))
    as (_ & Hnone & _); [discriminate|].
  destruct Hnone as [_ H]; [by left | exact H].
Defined.

(** ** Questions and answers alternate *)





(** * Handlers and stale renders *)


(** ** A handler called from the current render *)

















(** ** Two calls from one render *)






